(** * One-time-code login flow of the Nextest tutorial portal

    A shallow embedding of the two handlers of the repository:

    - the Express application: the routes [/api/auth/login],
      [/api/auth/verify] and [/api/auth/me] over the tables [users] and
      [verificationCodes];
    - the serverless mock [handler] of [api/index.js].

    Conventions of the model.

    - A JavaScript string is a [string], one character per code unit; a
      body field is a string or absent ([None], read as [undefined]).
    - A timestamp is a number of milliseconds, in [Z].
    - A table is a list of its rows; a select returns the matching rows
      in list order and [const [x] = await db.select()...] takes the
      first.  The database promises no order, and an update keeps a row
      in its place only here: the properties are stated so that they do
      not depend on the order of the rows.
    - The binary64 numbers of the code generator are dyadic numbers
      [mant * 2 ^ expo] with an explicit round-to-nearest-even.
    - What a request reads from outside (clock, random draw, outcome of
      the mail transport) is a [World]; the database and the session are
      passed in and returned.
    - The module is loaded before any request is served; [module_load]
      says for which environments loading succeeds.
    - Database calls are taken to succeed: the outer [catch] of each
      handler, which turns an exception into a 400 or 500 response, is
      modelled only where the handler itself can throw ([new URL] in the
      mock).  The CORS headers of the mock are left out. *)

From Stdlib Require Import ZArith List String Ascii Bool Lia Permutation.
From Stdlib Require PrimFloat FloatOps Uint63.
Import ListNotations.

Local Open Scope string_scope.
Local Open Scope Z_scope.

(* ================================================================== *)
(** * Part I: definitions                                              *)
(* ================================================================== *)

(** ** JavaScript values used by the handlers *)

(** [!v] is false exactly for a defined, non-empty string; a body field
    that is absent reads as [undefined], here [None]. *)
Definition truthy (v : option string) : bool :=
  match v with
  | Some s => negb (String.eqb s "")
  | None => false
  end.

(** [s.endsWith(suffix)]: the last [suffix.length] code units of [s] are
    those of [suffix]. *)
Definition endsWith (s suffix : string) : bool :=
  (String.length suffix <=? String.length s)%nat
  && String.eqb (substring (String.length s - String.length suffix)
                           (String.length suffix) s) suffix.

(** ** Binary64 numbers

    A non-negative finite double is [mant * 2 ^ expo]; [round64] takes an
    exact dyadic value to the nearest double, ties to even, with the
    53-bit precision and the least exponent -1074 of the format.  The
    values of the code generator stay below [2 ^ 20], far from overflow. *)

Record double := Double { mant : Z; expo : Z }.

Definition prec : Z := 53.
Definition emin : Z := -1074.

(** Number of significant bits of a non-negative integer. *)
Definition bits (n : Z) : Z := if n =? 0 then 0 else Z.log2 n + 1.

(** The integer nearest to [n / 2 ^ k], ties to even ([1 <= k]). *)
Definition rne (n k : Z) : Z :=
  let q := Z.shiftr n k in
  let r := n - Z.shiftl q k in
  let half := Z.shiftl 1 (k - 1) in
  if r <? half then q
  else if half <? r then q + 1
  else if Z.even q then q else q + 1.

Definition round64 (x : double) : double :=
  let k := Z.max (bits (mant x) - prec) (emin - expo x) in
  if k <=? 0 then x
  else {| mant := rne (mant x) k; expo := expo x + k |}.

(** [x * y] and [x + y] on doubles: the exact result, rounded once. *)
Definition fmul (x y : double) : double :=
  round64 {| mant := mant x * mant y; expo := expo x + expo y |}.

Definition fadd (x y : double) : double :=
  let e := Z.min (expo x) (expo y) in
  round64 {| mant := mant x * 2 ^ (expo x - e) + mant y * 2 ^ (expo y - e);
             expo := e |}.

(** A numeric literal with an integer value. *)
Definition literal (n : Z) : double := round64 {| mant := n; expo := 0 |}.

(** [Math.floor(x)], an integer. *)
Definition Math_floor (x : double) : Z :=
  if 0 <=? expo x then mant x * 2 ^ expo x
  else Z.shiftr (mant x) (- expo x).

(** What [Math.random()] can return: a double [r] with [0 <= r < 1]. *)
Definition random_draw (r : double) : bool :=
  (0 <=? mant r) && (mant r <? 2 ^ prec) && (emin <=? expo r)
  && (mant r <? 2 ^ (- expo r)).

(** [n.toString()] for an integer-valued number below [10 ^ 21]: its
    decimal digits, most significant first. *)
Definition digitChar (d : Z) : ascii := ascii_of_nat (48 + Z.to_nat d).

Fixpoint digits (fuel : nat) (n : Z) (acc : string) : string :=
  match fuel with
  | O => acc
  | S fuel' =>
      let acc' := String (digitChar (n mod 10)) acc in
      if n / 10 =? 0 then acc' else digits fuel' (n / 10) acc'
  end.

Definition toString (n : Z) : string :=
  if n <? 0 then "-" ++ digits (S (Z.to_nat (Z.log2 (- n)))) (- n) ""
  else digits (S (Z.to_nat (Z.log2 n))) n "".

Definition isDigit (c : ascii) : bool :=
  let n := nat_of_ascii c in ((48 <=? n) && (n <=? 57))%nat.

Fixpoint allDigits (s : string) : bool :=
  match s with
  | EmptyString => true
  | String c s' => isDigit c && allDigits s'
  end.

(** [Math.floor(100000 + Math.random() * 900000).toString()], as a
    function of the random draw. *)
Definition generateVerificationCode (random : double) : string :=
  toString (Math_floor (fadd (literal 100000) (fmul random (literal 900000)))).

(** The same expression on the primitive binary64 numbers of the proof
    assistant, against which the dyadic model is tested. *)
Definition to_float (x : double) : PrimFloat.float :=
  FloatOps.Z.ldexp (PrimFloat.of_uint63 (Uint63.of_Z (mant x))) (expo x).

Definition primitive_code (random : PrimFloat.float) : PrimFloat.float :=
  PrimFloat.add (PrimFloat.of_uint63 (Uint63.of_Z 100000))
                (PrimFloat.mul random (PrimFloat.of_uint63 (Uint63.of_Z 900000))).

Definition agrees (random : double) : bool :=
  PrimFloat.eqb
    (primitive_code (to_float random))
    (to_float (fadd (literal 100000) (fmul random (literal 900000)))).

(** ** The tables *)

Module users.
Record row := Row {
  id : string;
  name : string;
  email : string;
  department : string;
  password : option string;
  isActive : bool;
  createdAt : Z
}.
End users.

(** The primary key of a verification code is drawn by the database
    ([gen_random_uuid()]); the model numbers the keys. *)
Module verificationCodes.
Record row := Row {
  id : N;
  email : string;
  code : string;
  expiresAt : Z;
  used : bool;
  createdAt : Z
}.

Definition set_used (b : bool) (r : row) : row :=
  {| id := id r; email := email r; code := code r;
     expiresAt := expiresAt r; used := b; createdAt := createdAt r |}.
End verificationCodes.

Record Db := {
  users_rows : list users.row;
  codes_rows : list verificationCodes.row
}.

(** A key that no row of the table holds: the one after the largest. *)
Definition gen_random_uuid (rows : list verificationCodes.row) : N :=
  N.succ (fold_right N.max 0%N (map verificationCodes.id rows)).

(** [db.insert(verificationCodes).values({ email, code, expiresAt })]:
    [id], [used] and [createdAt] take their column defaults. *)
Definition insert_code (defaultNow : Z) (email code : string) (expiresAt : Z)
    (rows : list verificationCodes.row) : list verificationCodes.row :=
  rows ++ [ {| verificationCodes.id := gen_random_uuid rows;
               verificationCodes.email := email;
               verificationCodes.code := code;
               verificationCodes.expiresAt := expiresAt;
               verificationCodes.used := false;
               verificationCodes.createdAt := defaultNow |} ].

(** [db.update(verificationCodes).set({ used: true }).where(eq(id, key))]. *)
Definition mark_used (key : N) (rows : list verificationCodes.row)
    : list verificationCodes.row :=
  map (fun r => if (verificationCodes.id r =? key)%N
                then verificationCodes.set_used true r else r) rows.

(** [db.select().from(users).where(eq(users.email, email))]. *)
Definition select_users_by_email (email : string) (rows : list users.row)
    : list users.row :=
  filter (fun u => String.eqb (users.email u) email) rows.

Definition select_users_by_id (key : string) (rows : list users.row)
    : list users.row :=
  filter (fun u => String.eqb (users.id u) key) rows.

(** The [where] clause of the verification query: [and(eq(email),
    eq(code), eq(used, false), gt(expiresAt, new Date()))]. *)
Definition acceptable (now : Z) (email code : string)
    (r : verificationCodes.row) : bool :=
  String.eqb (verificationCodes.email r) email
  && String.eqb (verificationCodes.code r) code
  && Bool.eqb (verificationCodes.used r) false
  && (now <? verificationCodes.expiresAt r).

Definition select_codes (now : Z) (email code : string)
    (rows : list verificationCodes.row) : list verificationCodes.row :=
  filter (acceptable now email code) rows.

(** ** Environment of a request *)

Record ProcessEnv := {
  NODE_ENV : option string;
  SMTP_USER : option string;
  SMTP_PASS : option string
}.

(** What the outside world answers during one request. *)
Record World := {
  Date_now : Z;               (* [Date.now()] and [new Date()] *)
  Math_random : double;       (* [Math.random()] *)
  defaultNow : Z;             (* the database clock of [defaultNow()] *)
  sendMail_resolves : bool    (* [transporter.sendMail] does not reject *)
}.

(** *** Loading the module

    [let transporter; if (user && pass) transporter =
    nodemailer.createTransporter(emailConfig);] runs once, when the
    module is loaded.  The package [nodemailer] exports
    [createTransport]; it has no property [createTransporter], so the
    source reads [undefined], here [None], and the call throws a
    TypeError: the module does not load and no request is served. *)

Definition Transporter : Type := unit.

Definition nodemailer_createTransporter : option (unit -> Transporter) := None.

(** The condition of the [if]: both SMTP credentials are set. *)
Definition credentials (env : ProcessEnv) : bool :=
  truthy (SMTP_USER env) && truthy (SMTP_PASS env).

(** The value of [transporter] once the module is loaded, [None] for
    [undefined]; no value at all when loading throws. *)
Definition module_load (env : ProcessEnv) : option (option Transporter) :=
  if credentials env
  then match nodemailer_createTransporter with
       | Some createTransporter => Some (Some (createTransporter tt))
       | None => None
       end
  else Some None.

(** The process serves requests. *)
Definition started (env : ProcessEnv) : bool :=
  match module_load env with
  | Some _ => true
  | None => false
  end.

(** [transporter] is defined. *)
Definition transporter (env : ProcessEnv) : bool :=
  match module_load env with
  | Some (Some _) => true
  | _ => false
  end.

(** [sendVerificationCode]: [true] when the promise resolves. *)
Definition sendVerificationCode (env : ProcessEnv) (w : World) : bool :=
  if negb (transporter env) then true else sendMail_resolves w.

(** ** Responses of the Express application *)

Inductive Body :=
| BMessage (message : string)
| BDebug (message debugCode : string)
| BUser (user : option users.row).

Record Response := { status : Z; body : Body }.

Definition json (b : Body) : Response := {| status := 200; body := b |}.

Definition bad_domain : Response :=
  {| status := 400;
     body := BMessage "Email deve ser do domínio @nextest.com.br" |}.

Definition user_not_found : Response :=
  {| status := 404;
     body := BMessage "Usuário não encontrado. Crie uma conta primeiro." |}.

Definition invalid_code : Response :=
  {| status := 400; body := BMessage "Código inválido ou expirado" |}.

(** ** POST /api/auth/login *)

Definition auth_login (env : ProcessEnv) (w : World) (db : Db)
    (email : option string) : Db * Response :=
  match email with
  | None => (db, bad_domain)
  | Some e =>
      if negb (truthy email) || negb (endsWith e "@nextest.com.br")
      then (db, bad_domain)
      else
        match select_users_by_email e (users_rows db) with
        | [] => (db, user_not_found)
        | _ :: _ =>
            let code := generateVerificationCode (Math_random w) in
            let expiresAt := Date_now w + 10 * 60 * 1000 in
            let db' :=
              {| users_rows := users_rows db;
                 codes_rows :=
                   insert_code (defaultNow w) e code expiresAt (codes_rows db) |} in
            if sendVerificationCode env w
            then (db', json (BMessage "Código de verificação enviado"))
            else (db', json (BDebug "Código gerado (email não enviado)" code))
        end
  end.

(** ** POST /api/auth/verify

    The handler awaits three database operations in a row.  [auth_verify]
    runs them without interruption; [verify_step] below is the same
    handler cut at its [await]s. *)

Definition Session := option string.

Definition auth_verify (w : World) (db : Db) (session : Session)
    (email code : string) : Db * Session * Response :=
  match select_codes (Date_now w) email code (codes_rows db) with
  | [] => (db, session, invalid_code)
  | verificationCode :: _ =>
      let db' :=
        {| users_rows := users_rows db;
           codes_rows :=
             mark_used (verificationCodes.id verificationCode) (codes_rows db) |} in
      let user := hd_error (select_users_by_email email (users_rows db')) in
      (db', option_map users.id user, json (BUser user))
  end.

(** ** GET /api/auth/me *)

Definition auth_me (db : Db) (session : Session) : Response :=
  if negb (truthy session)
  then {| status := 401; body := BMessage "Não autorizado" |}
  else
    match session with
    | None => {| status := 401; body := BMessage "Não autorizado" |}
    | Some userId =>
        match select_users_by_id userId (users_rows db) with
        | [] => {| status := 404; body := BMessage "Usuário não encontrado" |}
        | user :: _ => json (BUser (Some user))
        end
    end.

(** ** The verification handler, one [await] at a time

    Between two [await]s another request may run.  A request in flight is
    at one of four points; [verify_step] runs it up to its next [await]. *)

Record VerifyRequest := {
  req_world : World;
  req_session : Session;
  req_email : string;
  req_code : string
}.

Inductive VerifyPoint :=
| AtSelect
| AtUpdate (verificationCode : verificationCodes.row)
| AtLookup
| Finished (session : Session) (res : Response).

Definition verify_step (rq : VerifyRequest) (db : Db) (pc : VerifyPoint)
    : Db * VerifyPoint :=
  match pc with
  | AtSelect =>
      match select_codes (Date_now (req_world rq)) (req_email rq) (req_code rq)
                         (codes_rows db) with
      | [] => (db, Finished (req_session rq) invalid_code)
      | verificationCode :: _ => (db, AtUpdate verificationCode)
      end
  | AtUpdate verificationCode =>
      ({| users_rows := users_rows db;
          codes_rows :=
            mark_used (verificationCodes.id verificationCode) (codes_rows db) |},
       AtLookup)
  | AtLookup =>
      let user := hd_error (select_users_by_email (req_email rq) (users_rows db)) in
      (db, Finished (option_map users.id user) (json (BUser user)))
  | Finished _ _ => (db, pc)
  end.

(** Two requests over the same database; a schedule says whose turn it
    is at each step. *)
Inductive Turn := First | Second.

Record Pair := { shared : Db; point1 : VerifyPoint; point2 : VerifyPoint }.

Definition pair_step (rq1 rq2 : VerifyRequest) (c : Pair) (t : Turn) : Pair :=
  match t with
  | First =>
      let '(db, pc) := verify_step rq1 (shared c) (point1 c) in
      {| shared := db; point1 := pc; point2 := point2 c |}
  | Second =>
      let '(db, pc) := verify_step rq2 (shared c) (point2 c) in
      {| shared := db; point1 := point1 c; point2 := pc |}
  end.

Definition run_pair (rq1 rq2 : VerifyRequest) (schedule : list Turn) (db : Db)
    : Pair :=
  fold_left (pair_step rq1 rq2) schedule
            {| shared := db; point1 := AtSelect; point2 := AtSelect |}.

Definition response_of (pc : VerifyPoint) : option Response :=
  match pc with
  | Finished _ res => Some res
  | _ => None
  end.

Definition succeeded (pc : VerifyPoint) : bool :=
  match pc with
  | Finished _ res => status res =? 200
  | _ => false
  end.

Definition Turn_eqb (a b : Turn) : bool :=
  match a, b with
  | First, First | Second, Second => true
  | _, _ => false
  end.

Definition turns (t : Turn) (schedule : list Turn) : nat :=
  List.length (filter (Turn_eqb t) schedule).

(** How many more turns a request needs at most, and whether it is past a
    successful select. *)
Definition remaining (pc : VerifyPoint) : nat :=
  match pc with
  | AtSelect => 3
  | AtUpdate _ => 2
  | AtLookup => 1
  | Finished _ _ => 0
  end.

Definition committed (pc : VerifyPoint) : bool :=
  match pc with
  | AtSelect => false
  | AtUpdate _ | AtLookup => true
  | Finished _ res => status res =? 200
  end.

(** A request that has not selected yet or has been refused. *)
Definition waiting_or_refused (pc : VerifyPoint) : Prop :=
  pc = AtSelect \/ exists session, pc = Finished session invalid_code.

(** ** The serverless mock handler *)

Module mock.

Record ReqBody := { email : option string; code : option string }.

Record Request := {
  method : string;
  pathname : option string;   (* [None]: [new URL(...)] throws *)
  body : option ReqBody
}.

Record User := {
  id : string;
  name : string;
  user_email : string;
  department : string
}.

Inductive Body :=
| End_
| Health (timestamp : Z) (environment database email_ path : string)
| EmailRequired (received : ReqBody)
| Message (message : string)
| LoginOk (message debugCode email_ note : string)
| VerifyOk (user : User) (message : string)
| NotFound (message path method_ : string) (available : list string)
| InternalError (message : string).

Record Response := { status : Z; body_ : Body }.

Definition empty_body : ReqBody := {| email := None; code := None |}.

Definition configured (v : option string) : string :=
  if truthy v then "configured" else "not configured".

Definition handler (NODE_ENV DATABASE_URL SMTP_USER : option string)
    (w : World) (req : Request) : Response :=
  if String.eqb (method req) "OPTIONS" then {| status := 200; body_ := End_ |}
  else
    match pathname req with
    | None =>
        {| status := 500; body_ := InternalError "Erro interno do servidor" |}
    | Some pathname =>
        if String.eqb pathname "/api/health" then
          {| status := 200;
             body_ := Health (Date_now w)
                             (match NODE_ENV with
                              | Some e => if truthy NODE_ENV then e else "unknown"
                              | None => "unknown"
                              end)
                             (configured DATABASE_URL)
                             (configured SMTP_USER)
                             pathname |}
        else if String.eqb pathname "/api/auth/login"
                && String.eqb (method req) "POST" then
          let body := match body req with Some b => b | None => empty_body end in
          match email body with
          | None =>
              {| status := 400; body_ := EmailRequired body |}
          | Some email =>
              if negb (truthy (Some email)) then
                {| status := 400; body_ := EmailRequired body |}
              else if negb (endsWith email "@nextest.com.br") then
                {| status := 400;
                   body_ := Message "Email deve ser do domínio @nextest.com.br" |}
              else
                let code :=
                  toString (Math_floor
                    (fadd (literal 100000)
                          (fmul (Math_random w) (literal 900000)))) in
                {| status := 200;
                   body_ := LoginOk "Código de verificação gerado (mock)"
                                    code email
                                    "Este é um teste - banco não conectado ainda" |}
          end
        else if String.eqb pathname "/api/auth/verify"
                && String.eqb (method req) "POST" then
          let body := match body req with Some b => b | None => empty_body end in
          match email body, code body with
          | Some email, Some code =>
              if negb (truthy (Some email)) || negb (truthy (Some code)) then
                {| status := 400;
                   body_ := Message "Email e código são obrigatórios" |}
              else if negb (String.length code =? 6)%nat then
                {| status := 400; body_ := Message "Código deve ter 6 dígitos" |}
              else
                {| status := 200;
                   body_ := VerifyOk {| id := "1"; name := "Usuário Teste";
                                        user_email := email;
                                        department := "TI" |}
                                     "Login realizado (mock)" |}
          | _, _ =>
              {| status := 400;
                 body_ := Message "Email e código são obrigatórios" |}
          end
        else
          {| status := 404;
             body_ := NotFound "Endpoint não encontrado" pathname (method req)
                        ["/api/health"; "/api/auth/login"; "/api/auth/verify"] |}
    end.

End mock.

(** ** Sequences of requests *)

Inductive Call :=
| Login (env : ProcessEnv) (w : World) (email : option string)
| Verify (w : World) (session : Session) (email code : string).

Definition serve (db : Db) (c : Call) : Db :=
  match c with
  | Login env w email => fst (auth_login env w db email)
  | Verify w session email code => fst (fst (auth_verify w db session email code))
  end.

Definition serve_all (db : Db) (calls : list Call) : Db := fold_left serve calls db.

(** The responses to [n] verifications of one pair in a row, each on the
    database and the session the one before left. *)
Fixpoint attempts (n : nat) (w : World) (db : Db) (session : Session)
    (email code : string) : list Response :=
  match n with
  | O => []
  | S n' =>
      let result := auth_verify w db session email code in
      snd result
      :: attempts n' w (fst (fst result)) (snd (fst result)) email code
  end.

(** ** Vocabulary of the properties *)

(** The value of a double counted in units of [2 ^ emin], an integer for
    every double. *)
Definition units (x : double) : Z := mant x * 2 ^ (expo x - emin).

(** A dyadic number that is not negative and lies on the grid of the
    format. *)
Definition on_grid (x : double) : Prop := 0 <= mant x /\ emin <= expo x.

(** An email outside the portal's domain: absent, or a string of which
    [@nextest.com.br] is not a suffix (the empty string among them). *)
Definition foreign (email : option string) : Prop :=
  forall s, email = Some s -> ~ exists p, s = p ++ "@nextest.com.br".

(** The same users with other [isActive] flags. *)
Definition set_isActive (flags : users.row -> bool) (u : users.row) : users.row :=
  {| users.id := users.id u; users.name := users.name u;
     users.email := users.email u; users.department := users.department u;
     users.password := users.password u; users.isActive := flags u;
     users.createdAt := users.createdAt u |}.

Definition with_isActive (flags : users.row -> bool) (db : Db) : Db :=
  {| users_rows := map (set_isActive flags) (users_rows db);
     codes_rows := codes_rows db |}.

(** ** Sample data for the worked instances *)

Definition ana : users.row :=
  {| users.id := "u-ana"; users.name := "Ana"; users.email := "ana@nextest.com.br";
     users.department := "TI"; users.password := None; users.isActive := false;
     users.createdAt := 0 |}.

Definition development : ProcessEnv :=
  {| NODE_ENV := Some "development"; SMTP_USER := None; SMTP_PASS := None |}.



(** A request at time [now] whose random draw is 1/2 and whose mail is
    delivered or not. *)
Definition at_time (now : Z) (delivered : bool) : World :=
  {| Date_now := now; Math_random := Double 1 (-1); defaultNow := now;
     sendMail_resolves := delivered |}.

Definition only_ana : Db := {| users_rows := [ana]; codes_rows := [] |}.

Definition pending (key : N) (code : string) (expiresAt : Z) : verificationCodes.row :=
  {| verificationCodes.id := key; verificationCodes.email := "ana@nextest.com.br";
     verificationCodes.code := code; verificationCodes.expiresAt := expiresAt;
     verificationCodes.used := false; verificationCodes.createdAt := 0 |}.

(** Two logins of the same user whose random draws coincide. *)
Definition twice_issued : Db :=
  serve_all only_ana
    [ Login development (at_time 0 true) (Some "ana@nextest.com.br");
      Login development (at_time 1000 true) (Some "ana@nextest.com.br") ].

Definition verify_request (now : Z) (code : string) : VerifyRequest :=
  {| req_world := at_time now true; req_session := None;
     req_email := "ana@nextest.com.br"; req_code := code |}.

Definition one_pending : Db :=
  {| users_rows := [ana]; codes_rows := [pending 1 "123456" 5000] |}.

(** The key [key] is in the table and every row that holds it is used. *)
Definition consumed (key : N) (rows : list verificationCodes.row) : Prop :=
  (exists x, In x rows /\ verificationCodes.id x = key)
  /\ forall x, In x rows -> verificationCodes.id x = key ->
               verificationCodes.used x = true.

(** ** Vocabulary of the further properties *)

(** What a stored code may become: the same row, or the same row used. *)
Definition kept (x x' : verificationCodes.row) : Prop :=
  verificationCodes.id x' = verificationCodes.id x
  /\ verificationCodes.email x' = verificationCodes.email x
  /\ verificationCodes.code x' = verificationCodes.code x
  /\ verificationCodes.expiresAt x' = verificationCodes.expiresAt x
  /\ verificationCodes.createdAt x' = verificationCodes.createdAt x
  /\ (verificationCodes.used x = true -> verificationCodes.used x' = true).

Definition is_login (c : Call) : bool :=
  match c with Login _ _ _ => true | Verify _ _ _ _ => false end.

Definition is_verify (c : Call) : bool := negb (is_login c).

(** No row of the table holds this email together with this code. *)
Definition unissued (email code : string) (rows : list verificationCodes.row)
    : Prop :=
  forall r, In r rows ->
            ~ (verificationCodes.email r = email /\ verificationCodes.code r = code).

(** A login that issues this code for this email. *)
Definition reissues (email code : string) (c : Call) : bool :=
  match c with
  | Login _ w (Some e) =>
      String.eqb e email
      && String.eqb (generateVerificationCode (Math_random w)) code
  | _ => false
  end.

(** Every row that holds this email with this code is used. *)
Definition spent (email code : string) (rows : list verificationCodes.row)
    : Prop :=
  forall r, In r rows ->
            verificationCodes.email r = email ->
            verificationCodes.code r = code ->
            verificationCodes.used r = true.

Definition bob : users.row :=
  {| users.id := "u-bob"; users.name := "Bob"; users.email := "bob@nextest.com.br";
     users.department := "RH"; users.password := None; users.isActive := true;
     users.createdAt := 0 |}.

(** Two requests in flight for different pairs, [r1] and [r2] being the
    rows they select: what holds of them at every point of a run. *)
Definition apart (rq1 rq2 : VerifyRequest) (r1 r2 : verificationCodes.row)
    (l1 l2 : list verificationCodes.row) (c : Pair) : Prop :=
  (point1 c = AtSelect ->
   select_codes (Date_now (req_world rq1)) (req_email rq1) (req_code rq1)
                (codes_rows (shared c)) = r1 :: l1)
  /\ (point2 c = AtSelect ->
      select_codes (Date_now (req_world rq2)) (req_email rq2) (req_code rq2)
                   (codes_rows (shared c)) = r2 :: l2)
  /\ (forall x, point1 c = AtUpdate x -> x = r1)
  /\ (forall x, point2 c = AtUpdate x -> x = r2)
  /\ (point1 c = AtSelect \/ committed (point1 c) = true)
  /\ (point2 c = AtSelect \/ committed (point2 c) = true)
  /\ (forall x, In x (codes_rows (shared c)) ->
                verificationCodes.id x = verificationCodes.id r1 ->
                verificationCodes.email x = req_email rq1
                /\ verificationCodes.code x = req_code rq1)
  /\ (forall x, In x (codes_rows (shared c)) ->
                verificationCodes.id x = verificationCodes.id r2 ->
                verificationCodes.email x = req_email rq2
                /\ verificationCodes.code x = req_code rq2).

(* ================================================================== *)
(** * Part II: properties                                              *)
(* ================================================================== *)

(** ** Strings *)

Lemma length_append (s t : string) :
  String.length (s ++ t) = (String.length s + String.length t)%nat.
Proof.
  induction s as [|c s IH]; simpl; [reflexivity | now rewrite IH].
Qed.

Lemma substring_all (s : string) : substring 0 (String.length s) s = s.
Proof.
  induction s as [|c s IH]; simpl; [reflexivity | now rewrite IH].
Qed.

Lemma substring_skip (p t : string) (n : nat) :
  substring (String.length p) n (p ++ t) = substring 0 n t.
Proof.
  induction p as [|c p IH]; simpl; [reflexivity | exact IH].
Qed.

Lemma substring_split (s : string) (n : nat) :
  (n <= String.length s)%nat ->
  s = substring 0 n s ++ substring n (String.length s - n) s.
Proof.
  revert n; induction s as [|c s IH]; intros [|n] Hn; simpl in *;
    try reflexivity; try lia.
  - now rewrite substring_all.
  - f_equal. apply IH. lia.
Qed.

(** [endsWith] is the suffix relation. *)
Lemma endsWith_spec (s suffix : string) :
  endsWith s suffix = true <-> exists p, s = p ++ suffix.
Proof.
  unfold endsWith. rewrite andb_true_iff, Nat.leb_le, String.eqb_eq. split.
  - intros [Hlen Hsub].
    exists (substring 0 (String.length s - String.length suffix) s).
    pose proof (substring_split s (String.length s - String.length suffix)) as E.
    replace (String.length s - (String.length s - String.length suffix))%nat
      with (String.length suffix) in E by lia.
    rewrite Hsub in E. apply E. lia.
  - intros [p ->]. rewrite length_append. split; [lia|].
    replace (String.length p + String.length suffix - String.length suffix)%nat
      with (String.length p) by lia.
    rewrite substring_skip. apply substring_all.
Qed.

Lemma truthy_Some (s : string) : truthy (Some s) = true <-> s <> "".
Proof.
  simpl. rewrite negb_true_iff. split.
  - intros H ->. discriminate.
  - intros H. apply String.eqb_neq. exact H.
Qed.

(** ** Code issuance *)

Lemma foreign_rejected (email : option string) :
  foreign email ->
  match email with
  | None => True
  | Some e => negb (truthy email) || negb (endsWith e "@nextest.com.br") = true
  end.
Proof.
  intros H. destruct email as [e|]; [|exact I].
  apply orb_true_iff. right. apply negb_true_iff.
  destruct (endsWith e "@nextest.com.br") eqn:E; [|reflexivity].
  exfalso. apply (H e eq_refl). now apply endsWith_spec.
Qed.

(** C5. For every email that does not end with [@nextest.com.br], an
    absent or empty one included, login issuance answers 400 with the
    domain message and leaves the database as it was: no verification
    code is stored.  The mock handler, which has no store, answers 400
    as well. *)
Theorem login_rejects_foreign_email
    (env : ProcessEnv) (w : World) (db : Db) (email : option string) :
  foreign email ->
  auth_login env w db email = (db, bad_domain)
  /\ status bad_domain = 400
  /\ forall DATABASE_URL code,
       mock.status
         (mock.handler (NODE_ENV env) DATABASE_URL (SMTP_USER env) w
            {| mock.method := "POST";
               mock.pathname := Some "/api/auth/login";
               mock.body := Some {| mock.email := email; mock.code := code |} |})
       = 400.
Proof.
  intros H. pose proof (foreign_rejected email H) as R.
  split; [|split].
  - unfold auth_login. destruct email as [e|]; [|reflexivity]. now rewrite R.
  - reflexivity.
  - intros DATABASE_URL code. unfold mock.handler. cbn -[endsWith truthy].
    destruct email as [e|]; [|reflexivity].
    cbn beta iota in R.
    destruct (truthy (Some e)) eqn:T; [|reflexivity].
    cbn -[endsWith] in *. now rewrite R.
Qed.

Lemma login_rejects_foreign_email_witness :
  auth_login {| NODE_ENV := None; SMTP_USER := None; SMTP_PASS := None |}
             {| Date_now := 0; Math_random := Double 0 0; defaultNow := 0;
                sendMail_resolves := true |}
             {| users_rows := []; codes_rows := [] |}
             (Some "ana@gmail.com")
  = ({| users_rows := []; codes_rows := [] |}, bad_domain).
Proof.
  refine (proj1 (login_rejects_foreign_email _ _ _ (Some "ana@gmail.com") _)).
  intros s [= <-] [p Hp]. apply (f_equal String.length) in Hp.
  rewrite length_append in Hp. simpl in Hp. lia.
Defined.

Lemma select_users_nonempty (email : string) (rows : list users.row) (u : users.row) :
  In u rows -> users.email u = email ->
  select_users_by_email email rows <> [].
Proof.
  intros Hin He Hnil.
  assert (In u (select_users_by_email email rows)) as Hu.
  { apply filter_In. split; [exact Hin|]. now apply String.eqb_eq. }
  rewrite Hnil in Hu. exact Hu.
Qed.

Lemma domain_email_accepted (email : string) :
  (exists p, email = p ++ "@nextest.com.br") ->
  negb (truthy (Some email)) || negb (endsWith email "@nextest.com.br") = false.
Proof.
  intros H. apply orb_false_iff. split; apply negb_false_iff.
  - apply truthy_Some. destruct H as [p ->]. intros E.
    apply (f_equal String.length) in E. rewrite length_append in E.
    simpl in E. lia.
  - now apply endsWith_spec.
Qed.

(** What a login that passes both checks does: it appends the new row and
    answers 200, with or without the debug code. *)
Lemma login_success (env : ProcessEnv) (w : World) (db : Db) (email : string)
    (u : users.row) :
  (exists p, email = p ++ "@nextest.com.br") ->
  In u (users_rows db) -> users.email u = email ->
  auth_login env w db (Some email)
  = ({| users_rows := users_rows db;
        codes_rows :=
          insert_code (defaultNow w) email
            (generateVerificationCode (Math_random w))
            (Date_now w + 10 * 60 * 1000) (codes_rows db) |},
     json (if sendVerificationCode env w
           then BMessage "Código de verificação enviado"
           else BDebug "Código gerado (email não enviado)"
                       (generateVerificationCode (Math_random w)))).
Proof.
  intros Hd Hin He. unfold auth_login.
  rewrite (domain_email_accepted email Hd).
  pose proof (select_users_nonempty email _ u Hin He) as Hne.
  destruct (select_users_by_email email (users_rows db)) as [|u' l];
    [congruence|].
  now destruct (sendVerificationCode env w).
Qed.

(** C7. A login for an existing user with an email of the domain answers
    200 and stores exactly one new verification code: the table is the
    old one followed by one row, which expires 10 minutes after the
    issuance time and is not used. *)
Theorem login_persists_one_code
    (env : ProcessEnv) (w : World) (db : Db) (email : string) (u : users.row) :
  (exists p, email = p ++ "@nextest.com.br") ->
  In u (users_rows db) -> users.email u = email ->
  exists res r,
    auth_login env w db (Some email)
    = ({| users_rows := users_rows db; codes_rows := (codes_rows db ++ [r])%list |}, res)
    /\ status res = 200
    /\ verificationCodes.expiresAt r = Date_now w + 10 * 60 * 1000
    /\ verificationCodes.used r = false
    /\ verificationCodes.email r = email
    /\ verificationCodes.code r = generateVerificationCode (Math_random w).
Proof.
  intros Hd Hin He. rewrite (login_success env w db email u Hd Hin He).
  unfold insert_code. eexists _, _. split; [reflexivity|].
  repeat split.
Qed.

Lemma select_with_isActive (flags : users.row -> bool) (email : string)
    (rows : list users.row) :
  select_users_by_email email (map (set_isActive flags) rows)
  = map (set_isActive flags) (select_users_by_email email rows).
Proof.
  unfold select_users_by_email.
  induction rows as [|u rows IH]; [reflexivity|].
  cbn [map filter].
  change (users.email (set_isActive flags u)) with (users.email u).
  destruct (String.eqb (users.email u) email); cbn [map]; now rewrite IH.
Qed.

Lemma login_persists_one_code_witness :
  exists res r,
    auth_login development (at_time 1000 true) only_ana (Some "ana@nextest.com.br")
    = ({| users_rows := [ana]; codes_rows := [r] |}, res)
    /\ status res = 200
    /\ verificationCodes.expiresAt r = 1000 + 10 * 60 * 1000
    /\ verificationCodes.used r = false
    /\ verificationCodes.email r = "ana@nextest.com.br"
    /\ verificationCodes.code r = generateVerificationCode (Double 1 (-1)).
Proof.
  apply (login_persists_one_code development (at_time 1000 true) only_ana
           "ana@nextest.com.br" ana).
  - exists "ana". reflexivity.
  - simpl. left. reflexivity.
  - reflexivity.
Defined.

(** C10. Login issuance does not read [isActive]: for a user whose flag
    is false it answers 200 and stores a code all the same, and the
    outcome of any login is the same whatever the flags of the users. *)
Theorem login_ignores_isActive
    (env : ProcessEnv) (w : World) (db : Db) (email : string) (u : users.row) :
  (exists p, email = p ++ "@nextest.com.br") ->
  In u (users_rows db) -> users.email u = email -> users.isActive u = false ->
  (status (snd (auth_login env w db (Some email))) = 200
   /\ exists r,
        codes_rows (fst (auth_login env w db (Some email)))
        = (codes_rows db ++ [r])%list
        /\ verificationCodes.email r = email)
  /\ forall (flags : users.row -> bool) (request : option string),
       snd (auth_login env w (with_isActive flags db) request)
       = snd (auth_login env w db request)
       /\ codes_rows (fst (auth_login env w (with_isActive flags db) request))
          = codes_rows (fst (auth_login env w db request)).
Proof.
  intros Hd Hin He _. split.
  - rewrite (login_success env w db email u Hd Hin He). simpl. split.
    + reflexivity.
    + unfold insert_code. eexists. split; reflexivity.
  - intros flags request. unfold auth_login.
    destruct request as [e|]; [|split; reflexivity].
    destruct (negb (truthy (Some e)) || negb (endsWith e "@nextest.com.br"));
      [split; reflexivity|].
    cbn [users_rows codes_rows with_isActive].
    rewrite select_with_isActive.
    destruct (select_users_by_email e (users_rows db)) as [|u' l];
      [split; reflexivity|].
    cbn [map]. destruct (sendVerificationCode env w); split; reflexivity.
Qed.

Lemma login_ignores_isActive_witness :
  status (snd (auth_login development (at_time 1000 true) only_ana
                          (Some "ana@nextest.com.br"))) = 200.
Proof.
  apply (login_ignores_isActive development (at_time 1000 true) only_ana
           "ana@nextest.com.br" ana).
  - exists "ana". reflexivity.
  - simpl. left. reflexivity.
  - reflexivity.
  - reflexivity.
Defined.

(** ** Code verification *)

Lemma acceptable_spec (now : Z) (email code : string) (r : verificationCodes.row) :
  acceptable now email code r = true
  <-> verificationCodes.email r = email
      /\ verificationCodes.code r = code
      /\ verificationCodes.used r = false
      /\ now < verificationCodes.expiresAt r.
Proof.
  unfold acceptable.
  rewrite !andb_true_iff, !String.eqb_eq, Bool.eqb_true_iff, Z.ltb_lt.
  tauto.
Qed.

Lemma select_codes_In (now : Z) (email code : string)
    (rows : list verificationCodes.row) (r : verificationCodes.row) :
  In r (select_codes now email code rows)
  <-> In r rows
      /\ verificationCodes.email r = email
      /\ verificationCodes.code r = code
      /\ verificationCodes.used r = false
      /\ now < verificationCodes.expiresAt r.
Proof.
  unfold select_codes. rewrite filter_In, acceptable_spec. tauto.
Qed.

Lemma verify_found (w : World) (db : Db) (session : Session) (email code : string)
    (r : verificationCodes.row) (l : list verificationCodes.row) :
  select_codes (Date_now w) email code (codes_rows db) = r :: l ->
  auth_verify w db session email code
  = ({| users_rows := users_rows db;
        codes_rows := mark_used (verificationCodes.id r) (codes_rows db) |},
     option_map users.id (hd_error (select_users_by_email email (users_rows db))),
     json (BUser (hd_error (select_users_by_email email (users_rows db))))).
Proof. intros H. unfold auth_verify. now rewrite H. Qed.

Lemma verify_not_found (w : World) (db : Db) (session : Session)
    (email code : string) :
  select_codes (Date_now w) email code (codes_rows db) = [] ->
  auth_verify w db session email code = (db, session, invalid_code).
Proof. intros H. unfold auth_verify. now rewrite H. Qed.

(** C2. The rows the verification query selects are exactly the rows
    whose email and code equal the submitted ones, whose used flag is
    false and whose expiry is strictly after the current time.
    Verification answers 200 if and only if the table holds such a row,
    the row it then marks used is one of them, and when every row with
    the submitted email and code has expired the answer is the
    invalid-code error and nothing changes. *)
Theorem verify_accepts_iff
    (w : World) (db : Db) (session : Session) (email code : string) :
  (forall r,
     In r (select_codes (Date_now w) email code (codes_rows db))
     <-> In r (codes_rows db)
         /\ verificationCodes.email r = email
         /\ verificationCodes.code r = code
         /\ verificationCodes.used r = false
         /\ Date_now w < verificationCodes.expiresAt r)
  /\ (status (snd (auth_verify w db session email code)) = 200
      <-> exists r,
            In r (codes_rows db)
            /\ verificationCodes.email r = email
            /\ verificationCodes.code r = code
            /\ verificationCodes.used r = false
            /\ Date_now w < verificationCodes.expiresAt r)
  /\ (status (snd (auth_verify w db session email code)) = 200 ->
      exists r,
        In r (codes_rows db)
        /\ verificationCodes.email r = email
        /\ verificationCodes.code r = code
        /\ verificationCodes.used r = false
        /\ Date_now w < verificationCodes.expiresAt r
        /\ codes_rows (fst (fst (auth_verify w db session email code)))
           = mark_used (verificationCodes.id r) (codes_rows db))
  /\ ((forall r,
         In r (codes_rows db) ->
         verificationCodes.email r = email ->
         verificationCodes.code r = code ->
         verificationCodes.expiresAt r <= Date_now w) ->
      auth_verify w db session email code = (db, session, invalid_code)).
Proof.
  split; [intros r; apply select_codes_In|].
  destruct (select_codes (Date_now w) email code (codes_rows db)) as [|r l] eqn:E.
  - rewrite (verify_not_found _ _ _ _ _ E). cbn [snd status invalid_code].
    assert (forall r, ~ (In r (codes_rows db)
                         /\ verificationCodes.email r = email
                         /\ verificationCodes.code r = code
                         /\ verificationCodes.used r = false
                         /\ Date_now w < verificationCodes.expiresAt r)) as Hno.
    { intros r Hr. apply select_codes_In in Hr. rewrite E in Hr. exact Hr. }
    split; [|split].
    + split; [discriminate|]. intros [r Hr]. now destruct (Hno r).
    + discriminate.
    + reflexivity.
  - rewrite (verify_found _ _ _ _ _ _ _ E). cbn [fst snd status json codes_rows].
    assert (In r (codes_rows db)
            /\ verificationCodes.email r = email
            /\ verificationCodes.code r = code
            /\ verificationCodes.used r = false
            /\ Date_now w < verificationCodes.expiresAt r) as Hr.
    { apply select_codes_In. rewrite E. now left. }
    split; [|split].
    + split; [intros _; now exists r | reflexivity].
    + intros _. exists r. tauto.
    + intros Hexp. destruct Hr as (Hin & He & Hc & _ & Hlt).
      specialize (Hexp r Hin He Hc). lia.
Qed.

(** C8. A verification that finds no acceptable row answers with one and
    the same response, status 400 and the message of [invalid_code],
    whatever the reason: two failing attempts, on any databases, at any
    times, with any emails and codes, get equal responses. *)
Theorem verify_failure_uniform
    (w1 w2 : World) (db1 db2 : Db) (session1 session2 : Session)
    (email1 code1 email2 code2 : string) :
  select_codes (Date_now w1) email1 code1 (codes_rows db1) = [] ->
  select_codes (Date_now w2) email2 code2 (codes_rows db2) = [] ->
  snd (auth_verify w1 db1 session1 email1 code1)
  = snd (auth_verify w2 db2 session2 email2 code2)
  /\ snd (auth_verify w1 db1 session1 email1 code1)
     = {| status := 400; body := BMessage "Código inválido ou expirado" |}.
Proof.
  intros H1 H2.
  rewrite (verify_not_found _ _ _ _ _ H1), (verify_not_found _ _ _ _ _ H2).
  split; reflexivity.
Qed.

(** A wrong code against a pending row, and the right code after the row
    has expired. *)
Lemma verify_failure_uniform_witness :
  snd (auth_verify (at_time 500 true)
         {| users_rows := [ana]; codes_rows := [pending 1 "123456" 1000] |}
         None "ana@nextest.com.br" "654321")
  = snd (auth_verify (at_time 2000 true)
           {| users_rows := [ana]; codes_rows := [pending 1 "123456" 1000] |}
           None "ana@nextest.com.br" "123456").
Proof.
  refine (proj1 (verify_failure_uniform (at_time 500 true) (at_time 2000 true)
                   _ _ None None _ _ _ _ _ _)); reflexivity.
Defined.

(** *** A consumed row stays consumed *)

Lemma gen_random_uuid_fresh (rows : list verificationCodes.row)
    (x : verificationCodes.row) :
  In x rows -> (verificationCodes.id x < gen_random_uuid rows)%N.
Proof.
  unfold gen_random_uuid. induction rows as [|y rows IH]; intros Hin.
  - destruct Hin.
  - cbn [map fold_right]. destruct Hin as [->|Hin]; [lia|].
    specialize (IH Hin). lia.
Qed.

Lemma consumed_mark_used (key key' : N) (rows : list verificationCodes.row) :
  consumed key rows -> consumed key (mark_used key' rows).
Proof.
  intros [[x [Hin Hid]] Hused]. unfold mark_used. split.
  - exists (if (verificationCodes.id x =? key')%N
            then verificationCodes.set_used true x else x).
    split.
    + apply (in_map (fun r => if (verificationCodes.id r =? key')%N
                              then verificationCodes.set_used true r else r)).
      exact Hin.
    + now destruct (verificationCodes.id x =? key')%N.
  - intros y Hy Hk. apply in_map_iff in Hy. destruct Hy as [z [<- Hz]].
    destruct (verificationCodes.id z =? key')%N; [reflexivity|].
    now apply Hused.
Qed.

Lemma consumed_insert (key : N) (now : Z) (email code : string) (expiresAt : Z)
    (rows : list verificationCodes.row) :
  consumed key rows -> consumed key (insert_code now email code expiresAt rows).
Proof.
  intros [[x [Hin Hid]] Hused]. unfold insert_code. split.
  - exists x. split; [apply in_or_app; now left | exact Hid].
  - intros y Hy Hk. apply in_app_or in Hy. destruct Hy as [Hy|[<-|[]]].
    + now apply Hused.
    + cbn in Hk. pose proof (gen_random_uuid_fresh rows x Hin). lia.
Qed.

Lemma consumed_serve (key : N) (db : Db) (c : Call) :
  consumed key (codes_rows db) -> consumed key (codes_rows (serve db c)).
Proof.
  intros H. destruct c as [env w email|w session email code]; cbn [serve].
  - unfold auth_login. destruct email as [e|]; [|exact H].
    destruct (negb (truthy (Some e)) || negb (endsWith e "@nextest.com.br"));
      [exact H|].
    destruct (select_users_by_email e (users_rows db)); [exact H|].
    destruct (sendVerificationCode env w); cbn [fst codes_rows];
      now apply consumed_insert.
  - unfold auth_verify.
    destruct (select_codes (Date_now w) email code (codes_rows db));
      [exact H|].
    cbn [fst codes_rows]. now apply consumed_mark_used.
Qed.

Lemma consumed_serve_all (key : N) (calls : list Call) (db : Db) :
  consumed key (codes_rows db) -> consumed key (codes_rows (serve_all db calls)).
Proof.
  unfold serve_all. revert db.
  induction calls as [|c calls IH]; intros db H; [exact H|].
  cbn [fold_left]. apply IH. now apply consumed_serve.
Qed.

Lemma consumed_after_mark (r : verificationCodes.row)
    (rows : list verificationCodes.row) :
  In r rows -> consumed (verificationCodes.id r) (mark_used (verificationCodes.id r) rows).
Proof.
  intros Hin. unfold mark_used. split.
  - exists (verificationCodes.set_used true r). split; [|reflexivity].
    apply in_map_iff. exists r. split; [|exact Hin].
    now rewrite N.eqb_refl.
  - intros y Hy Hk. apply in_map_iff in Hy. destruct Hy as [z [<- Hz]].
    destruct (verificationCodes.id z =? verificationCodes.id r)%N eqn:E;
      [reflexivity|].
    apply N.eqb_neq in E. now destruct E.
Qed.

(** *** What a verification leaves acceptable *)

Lemma verify_status_iff (w : World) (db : Db) (session : Session)
    (email code : string) :
  status (snd (auth_verify w db session email code)) = 200
  <-> exists x, In x (select_codes (Date_now w) email code (codes_rows db)).
Proof.
  destruct (select_codes (Date_now w) email code (codes_rows db)) as [|r l] eqn:E.
  - rewrite (verify_not_found _ _ _ _ _ E). split; [discriminate|].
    intros [x []].
  - rewrite (verify_found _ _ _ _ _ _ _ E). split; [|reflexivity].
    intros _. exists r. now left.
Qed.

(** Marking a key takes the rows with that key out of every selection
    and leaves the other rows in it. *)
Lemma select_mark_filter (now : Z) (email code : string) (key : N)
    (rows : list verificationCodes.row) :
  select_codes now email code (mark_used key rows)
  = filter (fun x => negb (verificationCodes.id x =? key)%N)
           (select_codes now email code rows).
Proof.
  unfold select_codes, mark_used.
  induction rows as [|x rows IH]; [reflexivity|]. cbn [map filter].
  destruct (verificationCodes.id x =? key)%N eqn:E.
  - assert (acceptable now email code (verificationCodes.set_used true x) = false)
      as Hno.
    { unfold acceptable. cbn. now rewrite andb_false_r. }
    rewrite Hno, IH.
    destruct (acceptable now email code x); [|reflexivity].
    cbn [filter]. now rewrite E.
  - rewrite IH. destruct (acceptable now email code x); [|reflexivity].
    cbn [filter]. now rewrite E.
Qed.

Lemma mark_used_ids (key : N) (rows : list verificationCodes.row) :
  map verificationCodes.id (mark_used key rows) = map verificationCodes.id rows.
Proof.
  unfold mark_used. induction rows as [|x rows IH]; [reflexivity|].
  cbn [map]. rewrite IH. now destruct (verificationCodes.id x =? key)%N.
Qed.

Lemma NoDup_ids_filter (f : verificationCodes.row -> bool)
    (rows : list verificationCodes.row) :
  NoDup (map verificationCodes.id rows) ->
  NoDup (map verificationCodes.id (filter f rows)).
Proof.
  induction rows as [|x rows IH]; intros H; [exact H|].
  cbn [map] in H. inversion H as [|? ? Hnotin Hnd]; subst.
  cbn [filter]. destruct (f x); [|now apply IH].
  cbn [map]. constructor; [|now apply IH].
  intros Hin. apply Hnotin. apply in_map_iff in Hin.
  destruct Hin as [y [Ey Hy]]. apply filter_In in Hy. destruct Hy as [Hy _].
  rewrite <- Ey. now apply in_map.
Qed.

(** With unique keys, marking the first selected row leaves exactly the
    other selected rows. *)
Lemma select_mark_first (now : Z) (email code : string)
    (r : verificationCodes.row) (l rows : list verificationCodes.row) :
  NoDup (map verificationCodes.id rows) ->
  select_codes now email code rows = r :: l ->
  select_codes now email code (mark_used (verificationCodes.id r) rows) = l.
Proof.
  intros Hnd E. rewrite select_mark_filter, E. cbn [filter].
  rewrite N.eqb_refl. cbn [negb].
  pose proof (NoDup_ids_filter (acceptable now email code) rows Hnd) as Hsel.
  fold (select_codes now email code rows) in Hsel. rewrite E in Hsel.
  cbn [map] in Hsel. inversion Hsel as [|? ? Hnotin _]; subst.
  clear - Hnotin. induction l as [|y l IH]; [reflexivity|].
  cbn [filter map] in *.
  destruct (N.eqb_spec (verificationCodes.id y) (verificationCodes.id r)) as [Ey|_].
  - exfalso. apply Hnotin. left. exact Ey.
  - cbn [negb]. f_equal. apply IH. intros H. apply Hnotin. now right.
Qed.

(** With unique keys, a pair verified [n] times in a row at one time is
    accepted once for each acceptable row and refused from then on. *)
Lemma attempts_statuses (n : nat) (w : World) (db : Db) (session : Session)
    (email code : string) :
  NoDup (map verificationCodes.id (codes_rows db)) ->
  map status (attempts n w db session email code)
  = (repeat 200
       (Nat.min n (List.length
                     (select_codes (Date_now w) email code (codes_rows db))))
     ++ repeat 400
          (n - List.length
                 (select_codes (Date_now w) email code (codes_rows db))))%list.
Proof.
  revert db session. induction n as [|n IH]; intros db session Hnd;
    [reflexivity|].
  cbn [attempts map].
  destruct (select_codes (Date_now w) email code (codes_rows db)) as [|r l] eqn:E.
  - rewrite (verify_not_found _ _ _ _ _ E). cbn [fst snd status invalid_code].
    rewrite (IH db session Hnd), E. cbn [List.length].
    rewrite Nat.min_0_r, Nat.sub_0_r. reflexivity.
  - rewrite (verify_found _ _ _ _ _ _ _ E). cbn [fst snd status json].
    rewrite IH by (cbn [codes_rows]; now rewrite mark_used_ids).
    cbn [codes_rows]. rewrite (select_mark_first _ _ _ r l _ Hnd E).
    reflexivity.
Qed.

(** With the same codes issued twice for one email, the same pair
    verifies twice in a row. *)
Lemma verifies_twice :
  let first :=
    auth_verify (at_time 2000 true) twice_issued None
                "ana@nextest.com.br" "550000" in
  let second :=
    auth_verify (at_time 3000 true) (fst (fst first)) None
                "ana@nextest.com.br" "550000" in
  status (snd first) = 200
  /\ status (snd second) = 200
  /\ snd second <> invalid_code.
Proof.
  vm_compute. repeat split; discriminate.
Qed.

(** C1, amended.  A successful verification marks the row it matched as
    used, and no later verification, after any further logins and
    verifications, matches that row again.  The next attempt with the
    same email and code answers the invalid-code error when the matched
    row was the only acceptable one.  It succeeds exactly when another
    row, one with another id, holds that email and code and is unused
    and unexpired at that time; with unique ids the pair, tried again
    and again, is accepted once for each such row and refused from then
    on. *)
Theorem verified_row_never_matched_again
    (w : World) (db : Db) (session : Session) (email code : string) :
  status (snd (auth_verify w db session email code)) = 200 ->
  exists r,
    In r (codes_rows db)
    /\ codes_rows (fst (fst (auth_verify w db session email code)))
       = mark_used (verificationCodes.id r) (codes_rows db)
    /\ (forall calls w' email' code' r',
          In r' (select_codes (Date_now w') email' code'
                   (codes_rows
                      (serve_all (fst (fst (auth_verify w db session email code)))
                                 calls))) ->
          verificationCodes.id r' <> verificationCodes.id r)
    /\ ((forall x, In x (select_codes (Date_now w) email code (codes_rows db)) ->
                   x = r) ->
        forall w' session',
          Date_now w <= Date_now w' ->
          snd (auth_verify w' (fst (fst (auth_verify w db session email code)))
                           session' email code)
          = invalid_code)
    /\ (forall w' session',
          status (snd (auth_verify w'
                         (fst (fst (auth_verify w db session email code)))
                         session' email code)) = 200
          <-> exists x,
                In x (codes_rows db)
                /\ verificationCodes.id x <> verificationCodes.id r
                /\ verificationCodes.email x = email
                /\ verificationCodes.code x = code
                /\ verificationCodes.used x = false
                /\ Date_now w' < verificationCodes.expiresAt x)
    /\ (NoDup (map verificationCodes.id (codes_rows db)) ->
        forall n w' session',
          map status
              (attempts n w' (fst (fst (auth_verify w db session email code)))
                        session' email code)
          = (repeat 200
               (Nat.min n
                  (List.length
                     (filter (fun x => negb (verificationCodes.id x
                                             =? verificationCodes.id r)%N)
                             (select_codes (Date_now w') email code
                                           (codes_rows db)))))
             ++ repeat 400
                  (n - List.length
                         (filter (fun x => negb (verificationCodes.id x
                                                 =? verificationCodes.id r)%N)
                                 (select_codes (Date_now w') email code
                                               (codes_rows db)))))%list).
Proof.
  intros Hok.
  destruct (select_codes (Date_now w) email code (codes_rows db)) as [|r l] eqn:E.
  { rewrite (verify_not_found _ _ _ _ _ E) in Hok. discriminate. }
  assert (In r (codes_rows db)) as Hin.
  { apply (select_codes_In (Date_now w) email code). rewrite E. now left. }
  rewrite (verify_found _ _ _ _ _ _ _ E). cbn [fst codes_rows].
  exists r. split; [exact Hin|]. split; [reflexivity|].
  split; [|split; [|split]].
  - intros calls w' email' code' r' Hr' Hid.
    pose proof (consumed_after_mark r (codes_rows db) Hin) as Hc.
    apply (consumed_serve_all _ calls
             {| users_rows := users_rows db;
                codes_rows := mark_used (verificationCodes.id r) (codes_rows db) |})
      in Hc.
    apply select_codes_In in Hr'. destruct Hr' as (Hr'in & _ & _ & Hu & _).
    destruct Hc as [_ Hc]. rewrite (Hc r' Hr'in Hid) in Hu. discriminate.
  - intros Honly w' session' Hlater.
    rewrite verify_not_found; [reflexivity|]. cbn [codes_rows].
    destruct (select_codes (Date_now w') email code
                (mark_used (verificationCodes.id r) (codes_rows db)))
      as [|y l'] eqn:E'; [reflexivity|]. exfalso.
    assert (In y (select_codes (Date_now w') email code
                    (mark_used (verificationCodes.id r) (codes_rows db)))) as Hy
      by (rewrite E'; now left).
    apply select_codes_In in Hy. destruct Hy as (Hyin & He & Hcd & Hu & Hlt).
    unfold mark_used in Hyin. apply in_map_iff in Hyin.
    destruct Hyin as [z [Hz Hzin]].
    destruct (verificationCodes.id z =? verificationCodes.id r)%N eqn:Eid.
    + subst y. cbn in Hu. discriminate.
    + subst y. apply N.eqb_neq in Eid. apply Eid. f_equal. apply Honly.
      rewrite <- E. apply select_codes_In. repeat split; try assumption. lia.
  - intros w' session'. rewrite verify_status_iff. cbn [codes_rows].
    rewrite select_mark_filter. split.
    + intros [y Hy]. apply filter_In in Hy. destruct Hy as [Hy Hid].
      apply select_codes_In in Hy. apply negb_true_iff, N.eqb_neq in Hid.
      exists y. tauto.
    + intros [x (Hx & Hid & Hrest)]. exists x. apply filter_In. split.
      * apply select_codes_In. tauto.
      * now apply negb_true_iff, N.eqb_neq.
  - intros Hnd n w' session'.
    rewrite attempts_statuses by (cbn [codes_rows]; now rewrite mark_used_ids).
    cbn [codes_rows]. rewrite select_mark_filter. reflexivity.
Qed.

Lemma verified_row_never_matched_again_witness :
  exists r,
    In r [pending 1 "123456" 5000]
    /\ codes_rows (fst (fst (auth_verify (at_time 500 true)
                               {| users_rows := [ana];
                                  codes_rows := [pending 1 "123456" 5000] |}
                               None "ana@nextest.com.br" "123456")))
       = mark_used (verificationCodes.id r) [pending 1 "123456" 5000].
Proof.
  destruct (verified_row_never_matched_again (at_time 500 true)
              {| users_rows := [ana]; codes_rows := [pending 1 "123456" 5000] |}
              None "ana@nextest.com.br" "123456" eq_refl) as [r [H1 [H2 _]]].
  exists r. split; assumption.
Defined.

(** ** Mail delivery *)

Lemma transporter_never_defined (env : ProcessEnv) : transporter env = false.
Proof.
  unfold transporter, module_load, nodemailer_createTransporter.
  now destruct (credentials env).
Qed.

Lemma sendVerificationCode_resolves (env : ProcessEnv) (w : World) :
  sendVerificationCode env w = true.
Proof.
  unfold sendVerificationCode. now rewrite transporter_never_defined.
Qed.

Lemma started_iff (env : ProcessEnv) :
  started env = true <-> credentials env = false.
Proof.
  unfold started, module_load, nodemailer_createTransporter.
  destruct (credentials env); split; congruence.
Qed.



(** ** The mock handler *)

(** C9.  The mock verification answers 200 with the fixed user, id ["1"]
    and the submitted email, for every POST to [/api/auth/verify] whose
    body holds a non-empty email and a code of exactly 6 characters: the
    characters are not inspected and nothing stored is read. *)
Theorem mock_verify_accepts_any_six
    (NODE_ENV DATABASE_URL SMTP_USER : option string) (w : World)
    (email code : string) :
  email <> "" -> String.length code = 6%nat ->
  mock.handler NODE_ENV DATABASE_URL SMTP_USER w
    {| mock.method := "POST";
       mock.pathname := Some "/api/auth/verify";
       mock.body := Some {| mock.email := Some email; mock.code := Some code |} |}
  = {| mock.status := 200;
       mock.body_ :=
         mock.VerifyOk {| mock.id := "1"; mock.name := "Usuário Teste";
                          mock.user_email := email; mock.department := "TI" |}
                       "Login realizado (mock)" |}.
Proof.
  intros He Hc. unfold mock.handler. cbn -[truthy String.length].
  assert (truthy (Some email) = true) as Te by now apply truthy_Some.
  assert (truthy (Some code) = true) as Tc.
  { apply truthy_Some. intros ->. discriminate. }
  rewrite Te, Tc, Hc. reflexivity.
Qed.

Lemma mock_verify_accepts_any_six_witness :
  mock.status
    (mock.handler None None None (at_time 0 true)
       {| mock.method := "POST";
          mock.pathname := Some "/api/auth/verify";
          mock.body := Some {| mock.email := Some "nobody";
                               mock.code := Some "abc-?!" |} |})
  = 200.
Proof.
  rewrite (mock_verify_accepts_any_six None None None (at_time 0 true)
             "nobody" "abc-?!").
  - reflexivity.
  - discriminate.
  - reflexivity.
Defined.

(** ** Two verifications in flight *)

(** The three steps of a request, run in a row, are [auth_verify]. *)
Lemma auth_verify_steps (rq : VerifyRequest) (db : Db) :
  let '(db1, pc1) := verify_step rq db AtSelect in
  let '(db2, pc2) := verify_step rq db1 pc1 in
  let '(db3, pc3) := verify_step rq db2 pc2 in
  let '(db', session, res) :=
    auth_verify (req_world rq) db (req_session rq) (req_email rq) (req_code rq) in
  db3 = db' /\ pc3 = Finished session res.
Proof.
  unfold auth_verify. cbn [verify_step].
  destruct (select_codes (Date_now (req_world rq)) (req_email rq) (req_code rq)
              (codes_rows db)) as [|r l]; cbn [verify_step users_rows];
    split; reflexivity.
Qed.

Lemma step_remaining (rq : VerifyRequest) (db : Db) (pc : VerifyPoint) :
  (remaining (snd (verify_step rq db pc)) <= pred (remaining pc))%nat.
Proof.
  destruct pc; cbn [verify_step]; try (cbn; lia).
  destruct (select_codes _ _ _ _); cbn; lia.
Qed.

Lemma step_committed (rq : VerifyRequest) (db : Db) (pc : VerifyPoint) :
  committed pc = true -> committed (snd (verify_step rq db pc)) = true.
Proof.
  destruct pc; cbn; try discriminate; auto.
Qed.

Lemma run_remaining (rq1 rq2 : VerifyRequest) (schedule : list Turn) (c : Pair) :
  let final := fold_left (pair_step rq1 rq2) schedule c in
  (remaining (point1 final) <= remaining (point1 c) - turns First schedule)%nat
  /\ (remaining (point2 final) <= remaining (point2 c) - turns Second schedule)%nat.
Proof.
  revert c. induction schedule as [|t schedule IH]; intros c; cbn [fold_left].
  - cbn. lia.
  - specialize (IH (pair_step rq1 rq2 c t)). cbn zeta in IH.
    destruct IH as [IH1 IH2]. unfold turns in *.
    destruct t; cbn [filter Turn_eqb List.length pair_step] in *.
    + pose proof (step_remaining rq1 (shared c) (point1 c)) as S1.
      destruct (verify_step rq1 (shared c) (point1 c)) as [db pc].
      cbn [point1 point2 snd] in *. lia.
    + pose proof (step_remaining rq2 (shared c) (point2 c)) as S2.
      destruct (verify_step rq2 (shared c) (point2 c)) as [db pc].
      cbn [point1 point2 snd] in *. lia.
Qed.

Lemma run_committed (rq1 rq2 : VerifyRequest) (schedule : list Turn) (c : Pair) :
  let final := fold_left (pair_step rq1 rq2) schedule c in
  (committed (point1 c) = true -> committed (point1 final) = true)
  /\ (committed (point2 c) = true -> committed (point2 final) = true).
Proof.
  revert c. induction schedule as [|t schedule IH]; intros c; cbn [fold_left].
  - split; auto.
  - specialize (IH (pair_step rq1 rq2 c t)). cbn zeta in IH.
    destruct IH as [IH1 IH2].
    destruct t; cbn [pair_step] in *.
    + pose proof (step_committed rq1 (shared c) (point1 c)) as S1.
      destruct (verify_step rq1 (shared c) (point1 c)) as [db pc].
      cbn [point1 point2 snd] in *. split; auto.
    + pose proof (step_committed rq2 (shared c) (point2 c)) as S2.
      destruct (verify_step rq2 (shared c) (point2 c)) as [db pc].
      cbn [point1 point2 snd] in *. split; auto.
Qed.

Lemma committed_done (pc : VerifyPoint) :
  committed pc = true -> remaining pc = 0%nat -> succeeded pc = true.
Proof. destruct pc; cbn; try discriminate; auto. Qed.

Lemma refused_done (pc : VerifyPoint) :
  waiting_or_refused pc -> remaining pc = 0%nat ->
  response_of pc = Some invalid_code.
Proof.
  intros [->|[session ->]]; cbn; [discriminate | reflexivity].
Qed.

(** Once the only acceptable row is marked, it is acceptable no more. *)
Lemma select_after_mark (now : Z) (email code : string)
    (r : verificationCodes.row) (rows : list verificationCodes.row) :
  select_codes now email code rows = [r] ->
  select_codes now email code (mark_used (verificationCodes.id r) rows) = [].
Proof.
  intros E.
  destruct (select_codes now email code
              (mark_used (verificationCodes.id r) rows)) as [|y l] eqn:E';
    [reflexivity|]. exfalso.
  assert (In y (select_codes now email code
                  (mark_used (verificationCodes.id r) rows))) as Hy
    by (rewrite E'; now left).
  apply select_codes_In in Hy. destruct Hy as (Hyin & He & Hc & Hu & Hlt).
  unfold mark_used in Hyin. apply in_map_iff in Hyin.
  destruct Hyin as [z [Hz Hzin]].
  destruct (verificationCodes.id z =? verificationCodes.id r)%N eqn:Eid;
    subst y; [discriminate|].
  apply N.eqb_neq in Eid. apply Eid. f_equal.
  assert (In z (select_codes now email code rows)) as Hz
    by (apply select_codes_In; tauto).
  rewrite E in Hz. destruct Hz as [<-|[]]. reflexivity.
Qed.

(** After the first request has marked the row, it goes on to succeed and
    the second one is refused, however the remaining steps interleave. *)
Lemma run_first_marked (rq1 rq2 : VerifyRequest) (schedule : list Turn) (c : Pair) :
  select_codes (Date_now (req_world rq2)) (req_email rq2) (req_code rq2)
               (codes_rows (shared c)) = [] ->
  committed (point1 c) = true -> (remaining (point1 c) <= 1)%nat ->
  waiting_or_refused (point2 c) ->
  let final := fold_left (pair_step rq1 rq2) schedule c in
  committed (point1 final) = true /\ waiting_or_refused (point2 final).
Proof.
  revert c. induction schedule as [|t schedule IH]; intros c Hsel Hc Hr Hw;
    cbn [fold_left]; [split; assumption|].
  destruct t; cbn [pair_step].
  - destruct (point1 c) eqn:P; cbn in Hc, Hr; try discriminate; try lia;
      cbn [verify_step]; apply IH; cbn; auto.
  - destruct Hw as [W|[session W]]; rewrite W; cbn [verify_step];
      [rewrite Hsel|]; apply IH; cbn [shared point1 point2]; auto;
      right; eexists; reflexivity.
Qed.

Lemma run_second_marked (rq1 rq2 : VerifyRequest) (schedule : list Turn) (c : Pair) :
  select_codes (Date_now (req_world rq1)) (req_email rq1) (req_code rq1)
               (codes_rows (shared c)) = [] ->
  committed (point2 c) = true -> (remaining (point2 c) <= 1)%nat ->
  waiting_or_refused (point1 c) ->
  let final := fold_left (pair_step rq1 rq2) schedule c in
  committed (point2 final) = true /\ waiting_or_refused (point1 final).
Proof.
  revert c. induction schedule as [|t schedule IH]; intros c Hsel Hc Hr Hw;
    cbn [fold_left]; [split; assumption|].
  destruct t; cbn [pair_step].
  - destruct Hw as [W|[session W]]; rewrite W; cbn [verify_step];
      [rewrite Hsel|]; apply IH; cbn [shared point1 point2]; auto;
      right; eexists; reflexivity.
  - destruct (point2 c) eqn:P; cbn in Hc, Hr; try discriminate; try lia;
      cbn [verify_step]; apply IH; cbn; auto.
Qed.

(** Both requests select before either updates: both are accepted. *)
Lemma both_verifications_succeed :
  let final :=
    run_pair (verify_request 500 "123456") (verify_request 501 "123456")
             [First; Second; First; Second; First; Second] one_pending in
  succeeded (point1 final) = true /\ succeeded (point2 final) = true.
Proof. vm_compute. split; reflexivity. Qed.

(** C3, amended.  Two verifications of the same still-valid pair, the
    only acceptable row being [r], each given its three turns: when one
    request selects and updates before the other selects, that one is
    accepted and the other gets the invalid-code error; when both select
    before either updates, both are accepted.  The select and the update
    are separate steps, not one atomic operation. *)
Theorem concurrent_verify_outcomes
    (rq1 rq2 : VerifyRequest) (db : Db) (r : verificationCodes.row)
    (a b : Turn) (rest : list Turn) :
  select_codes (Date_now (req_world rq1)) (req_email rq1) (req_code rq1)
               (codes_rows db) = [r] ->
  select_codes (Date_now (req_world rq2)) (req_email rq2) (req_code rq2)
               (codes_rows db) = [r] ->
  (3 <= turns First (a :: b :: rest))%nat ->
  (3 <= turns Second (a :: b :: rest))%nat ->
  let final := run_pair rq1 rq2 (a :: b :: rest) db in
  match a, b with
  | First, First =>
      succeeded (point1 final) = true
      /\ response_of (point2 final) = Some invalid_code
  | Second, Second =>
      response_of (point1 final) = Some invalid_code
      /\ succeeded (point2 final) = true
  | _, _ =>
      succeeded (point1 final) = true /\ succeeded (point2 final) = true
  end.
Proof.
  intros H1 H2 T1 T2. unfold run_pair, turns in *.
  destruct a, b; cbn [fold_left pair_step verify_step shared point1 point2
                      filter Turn_eqb List.length] in *;
    rewrite ?H1, ?H2; cbn [shared point1 point2 verify_step];
    rewrite ?H1, ?H2; cbn [shared point1 point2 verify_step].
  - match goal with |- context [fold_left _ rest ?c] => set (c2 := c) end.
    destruct (run_first_marked rq1 rq2 rest c2) as [Hc Hw];
      [now apply select_after_mark | reflexivity | cbn; lia | now left |].
    destruct (run_remaining rq1 rq2 rest c2) as [R1 R2].
    unfold turns in *. cbn [c2 point1 point2 remaining] in R1, R2.
    split; [apply committed_done | apply refused_done]; auto; lia.
  - match goal with |- context [fold_left _ rest ?c] => set (c2 := c) end.
    destruct (run_committed rq1 rq2 rest c2) as [C1 C2].
    destruct (run_remaining rq1 rq2 rest c2) as [R1 R2].
    unfold turns in *. cbn [c2 point1 point2 remaining] in R1, R2.
    split; apply committed_done; auto; lia.
  - match goal with |- context [fold_left _ rest ?c] => set (c2 := c) end.
    destruct (run_committed rq1 rq2 rest c2) as [C1 C2].
    destruct (run_remaining rq1 rq2 rest c2) as [R1 R2].
    unfold turns in *. cbn [c2 point1 point2 remaining] in R1, R2.
    split; apply committed_done; auto; lia.
  - match goal with |- context [fold_left _ rest ?c] => set (c2 := c) end.
    destruct (run_second_marked rq1 rq2 rest c2) as [Hc Hw];
      [now apply select_after_mark | reflexivity | cbn; lia | now left |].
    destruct (run_remaining rq1 rq2 rest c2) as [R1 R2].
    unfold turns in *. cbn [c2 point1 point2 remaining] in R1, R2.
    split; [apply refused_done | apply committed_done]; auto; lia.
Qed.

Lemma concurrent_verify_outcomes_witness :
  let final :=
    run_pair (verify_request 500 "123456") (verify_request 501 "123456")
             [First; First; Second; Second; First; Second] one_pending in
  succeeded (point1 final) = true
  /\ response_of (point2 final) = Some invalid_code.
Proof.
  apply (concurrent_verify_outcomes
           (verify_request 500 "123456") (verify_request 501 "123456")
           one_pending (pending 1 "123456" 5000)
           First First [Second; Second; First; Second]).
  - reflexivity.
  - reflexivity.
  - cbn. lia.
  - cbn. lia.
Defined.

(** ** The code generator *)

Lemma pow2_pos (a : Z) : 0 <= a -> 0 < 2 ^ a.
Proof. intros H. apply Z.pow_pos_nonneg; lia. Qed.

Lemma pow2_add (a b : Z) : 0 <= a -> 0 <= b -> 2 ^ (a + b) = 2 ^ a * 2 ^ b.
Proof. intros Ha Hb. now apply Z.pow_add_r. Qed.

Lemma bits_spec (n : Z) : 0 < n -> 2 ^ (bits n - 1) <= n < 2 ^ bits n.
Proof.
  intros H. unfold bits. destruct (Z.eqb_spec n 0) as [->|_]; [lia|].
  replace (Z.log2 n + 1 - 1) with (Z.log2 n) by lia.
  replace (Z.log2 n + 1) with (Z.succ (Z.log2 n)) by lia.
  now apply Z.log2_spec.
Qed.

Lemma bits_nonneg (n : Z) : 0 <= bits n.
Proof.
  unfold bits. destruct (n =? 0); [lia|].
  pose proof (Z.log2_nonneg n). lia.
Qed.

(** [rne n k] is one of the two integers around [n / 2 ^ k]. *)
Lemma rne_bounds (n k : Z) :
  Z.shiftr n k <= rne n k <= Z.shiftr n k + 1.
Proof.
  unfold rne.
  destruct (_ <? _); [lia|]. destruct (_ <? _); [lia|].
  destruct (Z.even _); lia.
Qed.

(** Below the midpoint above [N], rounding does not exceed [N]. *)
Lemma rne_below_midpoint (n k N : Z) :
  1 <= k -> 0 <= n -> n < N * 2 ^ k + 2 ^ (k - 1) -> rne n k <= N.
Proof.
  intros Hk Hn Hlt. unfold rne.
  rewrite Z.shiftr_div_pow2, !Z.shiftl_mul_pow2, Z.mul_1_l by lia.
  pose proof (pow2_pos k ltac:(lia)) as Pk.
  pose proof (pow2_pos (k - 1) ltac:(lia)) as Ph.
  assert (2 ^ k = 2 * 2 ^ (k - 1)) as E.
  { replace k with (1 + (k - 1)) at 1 by lia. rewrite pow2_add by lia. reflexivity. }
  pose proof (Z.div_mod n (2 ^ k) ltac:(lia)) as D.
  pose proof (Z.mod_pos_bound n (2 ^ k) Pk) as B.
  set (q := n / 2 ^ k) in *. set (h := 2 ^ (k - 1)) in *.
  set (p := 2 ^ k) in *.
  assert (q <= N) as HqN by nia.
  destruct (Z.ltb_spec (n - q * p) h); [lia|].
  assert (q < N) by nia.
  destruct (_ <? _); [lia|]. destruct (Z.even q); lia.
Qed.


(** Three facts on products of scaled integers. *)
Lemma scaled_below (u A d N : Z) :
  0 <= u <= 2 * 2 ^ 52 -> 0 < A -> 2 <= d -> 2 ^ 52 <= N ->
  u * A <= N * (A * d).
Proof.
  intros Hu HA Hd HN.
  apply Z.le_trans with (2 * 2 ^ 52 * A).
  - apply Z.mul_le_mono_nonneg_r; lia.
  - replace (N * (A * d)) with (N * d * A) by ring.
    apply Z.mul_le_mono_nonneg_r; [lia|].
    apply Z.le_trans with (2 ^ 52 * d); [lia|].
    apply Z.mul_le_mono_nonneg_r; lia.
Qed.

Lemma scaled_cancel (M d C N : Z) :
  0 < C -> 2 * (M * (C * d)) < (2 * N + 1) * C -> M * (C * d) <= N * C.
Proof.
  intros HC H.
  assert (2 * (M * d) < 2 * N + 1) as H'.
  { apply (Z.mul_lt_mono_pos_r C); [exact HC|].
    replace (2 * (M * d) * C) with (2 * (M * (C * d))) by ring. exact H. }
  replace (M * (C * d)) with (M * d * C) by ring.
  apply Z.mul_le_mono_nonneg_r; lia.
Qed.

Lemma scaled_above (M A p C g N : Z) :
  0 < A -> 0 < C -> 2 <= g -> p * A = C * g -> 2 ^ 52 * p <= M ->
  N < 2 ^ 53 -> 2 * (M * A) < (2 * N + 1) * C -> False.
Proof.
  intros HA HC Hg E HM HN H.
  assert (2 ^ 52 * p * A <= M * A) as H1
    by (apply Z.mul_le_mono_nonneg_r; lia).
  replace (2 ^ 52 * p * A) with (2 ^ 52 * (p * A)) in H1 by ring.
  rewrite E in H1.
  assert (2 ^ 52 * (C * 2) <= 2 ^ 52 * (C * g)) as H2.
  { apply Z.mul_le_mono_nonneg_l; [lia|].
    apply Z.mul_le_mono_nonneg_l; lia. }
  assert ((2 * N + 1) * C <= (2 * 2 ^ 53 - 1) * C) as H3
    by (apply Z.mul_le_mono_nonneg_r; lia).
  change (2 ^ 53) with (2 * 2 ^ 52) in H3. lia.
Qed.

Lemma pow2_ge_2 (a : Z) : 1 <= a -> 2 <= 2 ^ a.
Proof.
  intros H. change 2 with (2 ^ 1) at 1. apply Z.pow_le_mono_r; lia.
Qed.

Lemma bits_le (n b : Z) : 0 <= n -> 0 <= b -> bits n <= b -> n < 2 ^ b.
Proof.
  intros Hn Hb H. destruct (Z.eq_dec n 0) as [->|Hz].
  - now apply pow2_pos.
  - pose proof (bits_spec n ltac:(lia)) as [_ B].
    pose proof (Z.pow_le_mono_r 2 (bits n) b ltac:(lia) H). lia.
Qed.

Lemma round64_cases (x : double) :
  on_grid x ->
  (bits (mant x) <= prec /\ round64 x = x)
  \/ (exists k, 1 <= k /\ bits (mant x) = prec + k
                /\ round64 x = {| mant := rne (mant x) k; expo := expo x + k |}).
Proof.
  intros [Hm He]. unfold round64.
  destruct (Z.leb_spec (Z.max (bits (mant x) - prec) (emin - expo x)) 0) as [H|H].
  - left. split; [lia | reflexivity].
  - right. exists (bits (mant x) - prec).
    replace (Z.max (bits (mant x) - prec) (emin - expo x))
      with (bits (mant x) - prec) in * by lia.
    repeat split; lia.
Qed.

Lemma round64_on_grid (x : double) : on_grid x -> on_grid (round64 x).
Proof.
  intros G. destruct (round64_cases x G) as [[_ ->]|[k (Hk & _ & ->)]];
    [exact G|].
  destruct G as [Hm He]. split; cbn [mant expo]; [|lia].
  pose proof (rne_bounds (mant x) k).
  pose proof (Z.shiftr_nonneg (mant x) k). lia.
Qed.

(** A mantissa of more than 53 bits, cut by [k] bits, has 53 bits or is
    [2 ^ 53]. *)
Lemma rne_range (n k : Z) :
  1 <= k -> bits n = prec + k ->
  2 ^ 52 * 2 ^ k <= n /\ 2 ^ 52 <= rne n k <= 2 * 2 ^ 52.
Proof.
  intros Hk Hb. unfold prec in Hb.
  assert (0 < n) as Hpos.
  { destruct (Z.lt_trichotomy n 0) as [C|[C|C]]; [|subst n|exact C].
    - unfold bits in Hb. destruct (Z.eqb_spec n 0); [lia|].
      rewrite Z.log2_nonpos in Hb by lia. lia.
    - change (bits 0) with 0 in Hb. lia. }
  pose proof (bits_spec n Hpos) as [B1 B2]. rewrite Hb in B1, B2.
  replace (53 + k - 1) with (52 + k) in B1 by lia.
  rewrite pow2_add in B1, B2 by lia.
  pose proof (pow2_pos k ltac:(lia)) as Pk.
  pose proof (rne_bounds n k) as [R1 R2].
  rewrite Z.shiftr_div_pow2 in R1, R2 by lia.
  assert (n / 2 ^ k < 2 ^ 53) as Q2 by (apply Z.div_lt_upper_bound; lia).
  assert (2 ^ 52 <= n / 2 ^ k) as Q1 by (apply Z.div_le_lower_bound; lia).
  change (2 ^ 53) with (2 * 2 ^ 52) in Q2. lia.
Qed.

(** Rounding does not cross a double from below: under the midpoint that
    follows the normal number [N * 2 ^ E], the result is at most that
    number. *)
Lemma round64_upper (x : double) (N E : Z) :
  on_grid x -> 2 ^ 52 <= N < 2 ^ 53 -> emin <= E ->
  2 * units x < (2 * N + 1) * 2 ^ (E - emin) ->
  units (round64 x) <= N * 2 ^ (E - emin).
Proof.
  intros G HN HE Hlt. pose proof G as [Hm He].
  pose proof (pow2_pos (E - emin) ltac:(lia)) as PC.
  pose proof (pow2_pos (expo x - emin) ltac:(lia)) as PA.
  destruct (round64_cases x G) as [[Hb ->]|[k (Hk & Hb & ->)]];
    unfold units in *; cbn [mant expo].
  - (* already a double *)
    pose proof (bits_le (mant x) 53 Hm ltac:(lia) Hb) as Hm53.
    change (2 ^ 53) with (2 * 2 ^ 52) in Hm53.
    destruct (Z_le_gt_dec E (expo x)) as [C|C].
    + assert (2 ^ (expo x - emin) = 2 ^ (E - emin) * 2 ^ (expo x - E)) as Ea.
      { rewrite <- pow2_add by lia. f_equal; lia. }
      rewrite Ea in *. now apply scaled_cancel.
    + assert (2 ^ (E - emin) = 2 ^ (expo x - emin) * 2 ^ (E - expo x)) as Ec.
      { rewrite <- pow2_add by lia. f_equal; lia. }
      rewrite Ec. apply scaled_below; try lia. apply pow2_ge_2. lia.
  - (* rounded to 53 bits *)
    pose proof (rne_range (mant x) k Hk Hb) as [HM HR].
    pose proof (pow2_pos k ltac:(lia)) as Pk.
    pose proof (pow2_pos (expo x + k - emin) ltac:(lia)) as PAk.
    assert (2 ^ (expo x + k - emin) = 2 ^ k * 2 ^ (expo x - emin)) as Eak.
    { rewrite <- pow2_add by lia. f_equal; lia. }
    destruct (Z.lt_trichotomy (expo x + k) E) as [C|[C|C]].
    + assert (2 ^ (E - emin)
              = 2 ^ (expo x + k - emin) * 2 ^ (E - (expo x + k))) as Ec.
      { rewrite <- pow2_add by lia. f_equal; lia. }
      rewrite Ec. apply scaled_below; try lia. apply pow2_ge_2. lia.
    + subst E. apply Z.mul_le_mono_nonneg_r; [lia|].
      apply rne_below_midpoint; [lia|lia|].
      assert (2 ^ k = 2 * 2 ^ (k - 1)) as Ek.
      { replace k with (1 + (k - 1)) at 1 by lia. rewrite pow2_add by lia.
        reflexivity. }
      rewrite Eak in Hlt.
      assert (2 * mant x < (2 * N + 1) * 2 ^ k) as H'.
      { apply (Z.mul_lt_mono_pos_r (2 ^ (expo x - emin))); [exact PA|].
        replace (2 * mant x * 2 ^ (expo x - emin))
          with (2 * (mant x * 2 ^ (expo x - emin))) by ring.
        replace ((2 * N + 1) * 2 ^ k * 2 ^ (expo x - emin))
          with ((2 * N + 1) * (2 ^ k * 2 ^ (expo x - emin))) by ring.
        exact Hlt. }
      rewrite Ek in H' |- *. lia.
    + exfalso.
      apply (scaled_above (mant x) (2 ^ (expo x - emin)) (2 ^ k)
               (2 ^ (E - emin)) (2 ^ (expo x + k - E)) N); try lia.
      * apply pow2_ge_2. lia.
      * rewrite <- !pow2_add by lia. f_equal; lia.
Qed.

(** Nor does it cross a double from above. *)
Lemma round64_lower (x : double) (N E : Z) :
  on_grid x -> 0 <= N < 2 ^ 53 -> emin <= E ->
  N * 2 ^ (E - emin) <= units x ->
  N * 2 ^ (E - emin) <= units (round64 x).
Proof.
  intros G HN HE Hle. pose proof G as [Hm He].
  pose proof (pow2_pos (E - emin) ltac:(lia)) as PC.
  pose proof (pow2_pos (expo x - emin) ltac:(lia)) as PA.
  destruct (round64_cases x G) as [[Hb ->]|[k (Hk & Hb & ->)]];
    [exact Hle|].
  unfold units in *; cbn [mant expo].
  pose proof (rne_range (mant x) k Hk Hb) as [HM HR].
  pose proof (pow2_pos k ltac:(lia)) as Pk.
  pose proof (pow2_pos (expo x + k - emin) ltac:(lia)) as PAk.
  pose proof (rne_bounds (mant x) k) as [R1 _].
  rewrite Z.shiftr_div_pow2 in R1 by lia.
  destruct (Z_le_gt_dec (expo x + k) E) as [C|C].
  - assert (2 ^ (E - emin)
            = 2 ^ (E - (expo x + k)) * 2 ^ (expo x + k - emin)) as Ec.
    { rewrite <- pow2_add by lia. f_equal; lia. }
    assert (2 ^ (E - emin)
            = 2 ^ (E - (expo x + k)) * 2 ^ k * 2 ^ (expo x - emin)) as Ec'.
    { rewrite <- !pow2_add by lia. f_equal; lia. }
    pose proof (pow2_pos (E - (expo x + k)) ltac:(lia)) as Pd.
    rewrite Ec, Z.mul_assoc. apply Z.mul_le_mono_nonneg_r; [lia|].
    apply Z.le_trans with (mant x / 2 ^ k); [|exact R1].
    apply Z.div_le_lower_bound; [exact Pk|].
    apply (Z.mul_le_mono_pos_r _ _ (2 ^ (expo x - emin))); [exact PA|].
    rewrite Ec' in Hle.
    replace (2 ^ k * (N * 2 ^ (E - (expo x + k))) * 2 ^ (expo x - emin))
      with (N * (2 ^ (E - (expo x + k)) * 2 ^ k * 2 ^ (expo x - emin))) by ring.
    exact Hle.
  - assert (2 ^ (expo x + k - emin)
            = 2 ^ (E - emin) * 2 ^ (expo x + k - E)) as Ea.
    { rewrite <- pow2_add by lia. f_equal; lia. }
    pose proof (pow2_ge_2 (expo x + k - E) ltac:(lia)) as Pg.
    rewrite Ea. 
    apply Z.le_trans with (2 ^ 52 * (2 ^ (E - emin) * 2));
      [change (2 ^ 53) with (2 * 2 ^ 52) in HN; nia|].
    apply Z.le_trans with (2 ^ 52 * (2 ^ (E - emin) * 2 ^ (expo x + k - E))).
    + apply Z.mul_le_mono_nonneg_l; [lia|].
      apply Z.mul_le_mono_nonneg_l; lia.
    + apply Z.mul_le_mono_nonneg_r; [|lia].
      apply Z.mul_nonneg_nonneg; lia.
Qed.

(** The exact sum of two doubles is on the grid, and [fadd] rounds it. *)
Lemma fadd_exact (x y : double) :
  on_grid x -> on_grid y ->
  exists s, fadd x y = round64 s /\ on_grid s /\ units s = units x + units y.
Proof.
  intros [Hx Ex] [Hy Ey]. unfold fadd.
  set (e := Z.min (expo x) (expo y)).
  eexists. split; [reflexivity|].
  pose proof (pow2_pos (expo x - e) ltac:(lia)).
  pose proof (pow2_pos (expo y - e) ltac:(lia)).
  split.
  - split; cbn [mant expo]; [|lia].
    apply Z.add_nonneg_nonneg; apply Z.mul_nonneg_nonneg; lia.
  - unfold units. cbn [mant expo].
    replace (expo x - emin) with ((expo x - e) + (e - emin)) by lia.
    replace (expo y - emin) with ((expo y - e) + (e - emin)) by lia.
    rewrite !pow2_add by lia. ring.
Qed.

(** [Math.floor] of a double between two integers. *)
Lemma Math_floor_bounds (y : double) (lo hi : Z) :
  on_grid y ->
  lo * 2 ^ (- emin) <= units y < (hi + 1) * 2 ^ (- emin) ->
  lo <= Math_floor y <= hi.
Proof.
  intros [Hm He] [Hlo Hhi]. unfold units, Math_floor in *.
  pose proof (pow2_pos (expo y - emin) ltac:(lia)) as PA.
  destruct (Z.leb_spec 0 (expo y)) as [C|C].
  - assert (2 ^ (expo y - emin) = 2 ^ expo y * 2 ^ (- emin)) as Ea.
    { rewrite <- pow2_add by (unfold emin; lia). f_equal; lia. }
    rewrite Ea, Z.mul_assoc in Hlo, Hhi.
    pose proof (pow2_pos (- emin) ltac:(unfold emin; lia)) as PK.
    apply Z.mul_le_mono_pos_r in Hlo; [|exact PK].
    apply Z.mul_lt_mono_pos_r in Hhi; [|exact PK]. lia.
  - rewrite Z.shiftr_div_pow2 by lia.
    assert (2 ^ (- emin) = 2 ^ (- expo y) * 2 ^ (expo y - emin)) as Ek.
    { rewrite <- pow2_add by lia. f_equal; lia. }
    rewrite Ek, Z.mul_assoc in Hlo, Hhi.
    pose proof (pow2_pos (- expo y) ltac:(lia)) as PD.
    apply Z.mul_le_mono_pos_r in Hlo; [|exact PA].
    apply Z.mul_lt_mono_pos_r in Hhi; [|exact PA].
    split.
    + apply Z.div_le_lower_bound; lia.
    + assert (mant y / 2 ^ (- expo y) < hi + 1); [|lia].
      apply Z.div_lt_upper_bound; lia.
Qed.

(** The product of a draw with 900000, before rounding, stays under the
    midpoint between [900000 - 2 ^ -33] and [900000]. *)
Lemma draw_times_900000 (r : double) :
  random_draw r = true ->
  on_grid {| mant := mant r * 900000; expo := expo r + 0 |}
  /\ 2 * units {| mant := mant r * 900000; expo := expo r + 0 |}
     < (2 * (900000 * 2 ^ 33 - 1) + 1) * 2 ^ (-33 - emin).
Proof.
  unfold random_draw. rewrite !andb_true_iff, !Z.leb_le, !Z.ltb_lt.
  unfold prec. intros [[[Hm0 Hm53] He] Hlt1].
  split; [split; cbn [mant expo]; lia|].
  unfold units. cbn [mant expo].
  assert (expo r <= 0) as Hneg.
  { destruct (Z_le_gt_dec (expo r) 0); [assumption|].
    rewrite Z.pow_neg_r in Hlt1 by lia. lia. }
  set (t := expo r - emin).
  replace (expo r + 0 - emin) with t by (unfold t; lia).
  assert (0 <= t <= 1074) as Ht by (unfold t, emin in *; lia).
  pose proof (pow2_pos t ltac:(lia)) as PX.
  assert (2 ^ (- expo r) * 2 ^ t = 2 ^ 1074) as Eone.
  { rewrite <- pow2_add by lia. f_equal; unfold t, emin; lia. }
  assert (mant r * 2 ^ t <= 2 ^ 1074 - 2 ^ t) as Hbelow.
  { rewrite <- Eone.
    replace (2 ^ (- expo r) * 2 ^ t - 2 ^ t) with ((2 ^ (- expo r) - 1) * 2 ^ t)
      by ring.
    apply Z.mul_le_mono_nonneg_r; lia. }
  change (-33 - emin) with 1041.
  destruct (Z_le_gt_dec 1021 t) as [C|C].
  - pose proof (Z.pow_le_mono_r 2 1021 t ltac:(lia) C) as HX.
    set (X := 2 ^ t) in *. set (mX := mant r * X) in *.
    replace (mant r * 900000 * X) with (900000 * mX) by (unfold mX; ring).
    assert (2 ^ 1041 = 2 ^ 20 * 2 ^ 1021) as E1 by reflexivity.
    assert (2 ^ 1074 = 2 ^ 53 * 2 ^ 1021) as E2 by reflexivity.
    rewrite E1. rewrite E2 in Hbelow.
    set (L := 2 ^ 1021) in *. 
    change (2 ^ 33) with 8589934592. change (2 ^ 20) with 1048576.
    change (2 ^ 53) with 9007199254740992 in Hbelow. lia.
  - assert (mant r * 2 ^ t <= 2 ^ 53 * 2 ^ t) as H1
      by (apply Z.mul_le_mono_nonneg_r; lia).
    pose proof (Z.pow_le_mono_r 2 t 1020 ltac:(lia) ltac:(lia)) as HX.
    set (X := 2 ^ t) in *. set (mX := mant r * X) in *.
    replace (mant r * 900000 * X) with (900000 * mX) by (unfold mX; ring).
    assert (2 ^ 1041 = 2 ^ 21 * 2 ^ 1020) as E1 by reflexivity.
    rewrite E1.
    set (L := 2 ^ 1020) in *.
    assert (0 < L) by (unfold L; apply pow2_pos; lia).
    change (2 ^ 33) with 8589934592. change (2 ^ 21) with 2097152.
    change (2 ^ 53) with 9007199254740992 in H1. lia.
Qed.

(** The number the generator prints has six digits. *)
Lemma code_range (r : double) :
  random_draw r = true ->
  100000 <= Math_floor (fadd (literal 100000) (fmul r (literal 900000)))
         <= 999999.
Proof.
  intros Hr. destruct (draw_times_900000 r Hr) as [GP HP].
  change (literal 100000) with {| mant := 100000; expo := 0 |}.
  change (literal 900000) with {| mant := 900000; expo := 0 |}.
  unfold fmul. cbn [mant expo].
  set (P := {| mant := mant r * 900000; expo := expo r + 0 |}) in *.
  pose proof (round64_on_grid P GP) as Gp.
  pose proof (round64_upper P (900000 * 2 ^ 33 - 1) (-33) GP
                ltac:(cbv; split; congruence) ltac:(cbv; congruence) HP) as Up.
  assert (0 <= units (round64 P)) as Lp.
  { destruct Gp as [? ?]. unfold units. apply Z.mul_nonneg_nonneg; [lia|].
    apply Z.lt_le_incl, pow2_pos. lia. }
  assert (on_grid {| mant := 100000; expo := 0 |}) as G1
    by (split; cbv; congruence).
  destruct (fadd_exact {| mant := 100000; expo := 0 |} (round64 P) G1 Gp)
    as [s (-> & Gs & Us)].
  assert (units {| mant := 100000; expo := 0 |} = 100000 * 2 ^ 1074) as U1
    by reflexivity.
  rewrite U1 in Us. change (-33 - emin) with 1041 in Up.
  assert (2 ^ 1074 = 2 ^ 33 * 2 ^ 1041) as E1 by reflexivity.
  apply Math_floor_bounds; [now apply round64_on_grid|].
  change (- emin) with 1074. split.
  - replace (2 ^ 1074) with (2 ^ (0 - emin)) by reflexivity.
    apply round64_lower; [exact Gs | cbv; split; congruence | cbv; congruence |].
    change (0 - emin) with 1074. lia.
  - apply Z.le_lt_trans with ((1000000 * 2 ^ 33 - 1) * 2 ^ (-33 - emin)).
    + apply round64_upper;
        [exact Gs | cbv; split; congruence | cbv; congruence |].
      change (-33 - emin) with 1041. rewrite Us, E1.
      set (L := 2 ^ 1041) in *.
      assert (0 < L) by (unfold L; apply pow2_pos; lia).
      change (2 ^ 33) with 8589934592 in *. lia.
    + change (-33 - emin) with 1041. rewrite E1.
      set (L := 2 ^ 1041) in *.
      assert (0 < L) by (unfold L; apply pow2_pos; lia).
      change (2 ^ 33) with 8589934592 in *. lia.
Qed.

(** On sample draws, among them the extreme ones and draws whose product
    and sum are both inexact, the model computes what binary64 hardware
    arithmetic computes. *)
Example agrees_with_primitive_floats :
  forallb agrees
    [ Double 0 0; Double 1 (-1); Double 1 (-1074); Double 1 (-40);
      Double 3 (-2); Double 7 (-3);
      Double (2 ^ 53 - 1) (-53); Double (2 ^ 53 - 1) (-1074);
      Double (2 ^ 53 - 12345) (-60); Double (2 ^ 52 + 1) (-53);
      Double 6004799503160661 (-54); Double 5404319552844595 (-53);
      Double 8106479329266893 (-53); Double 9007199254740991 (-54) ] = true.
Proof. vm_compute. reflexivity. Qed.

(** *** Decimal rendering *)

Lemma isDigit_digitChar (d : Z) : 0 <= d < 10 -> isDigit (digitChar d) = true.
Proof.
  intros H.
  assert (d = 0 \/ d = 1 \/ d = 2 \/ d = 3 \/ d = 4 \/ d = 5 \/ d = 6 \/ d = 7
          \/ d = 8 \/ d = 9) as C by lia.
  repeat (destruct C as [->|C]; [reflexivity|]). subst d. reflexivity.
Qed.

Lemma digits_allDigits (fuel : nat) (n : Z) (acc : string) :
  0 <= n -> allDigits acc = true -> allDigits (digits fuel n acc) = true.
Proof.
  revert n acc. induction fuel as [|fuel IH]; intros n acc Hn Hacc;
    cbn [digits]; [exact Hacc|].
  assert (allDigits (String (digitChar (n mod 10)) acc) = true) as Hacc'.
  { cbn [allDigits]. rewrite Hacc, isDigit_digitChar; [reflexivity|].
    apply Z.mod_pos_bound. lia. }
  destruct (n / 10 =? 0); [exact Hacc'|].
  apply IH; [|exact Hacc']. apply Z.div_pos; lia.
Qed.

(** A number with [k + 1] decimal digits is printed with [k + 1]
    characters. *)
Lemma digits_length (k fuel : nat) (n : Z) (acc : string) :
  (S k <= fuel)%nat ->
  10 ^ Z.of_nat k <= n < 10 ^ Z.of_nat (S k) ->
  String.length (digits fuel n acc) = (S k + String.length acc)%nat.
Proof.
  revert fuel n acc. induction k as [|k IH]; intros fuel n acc Hf Hn;
    (destruct fuel as [|fuel]; [lia|]); cbn [digits].
  - change (10 ^ Z.of_nat 0) with 1 in Hn. change (10 ^ Z.of_nat 1) with 10 in Hn.
    rewrite Z.div_small by lia. reflexivity.
  - rewrite !Nat2Z.inj_succ, !Z.pow_succ_r in Hn by lia.
    assert (0 < 10 ^ Z.of_nat k) as Pk by (apply Z.pow_pos_nonneg; lia).
    assert (10 ^ Z.of_nat k <= n / 10) as Lo
      by (apply Z.div_le_lower_bound; lia).
    assert (n / 10 < 10 ^ Z.of_nat (S k)) as Hi.
    { rewrite Nat2Z.inj_succ, Z.pow_succ_r by lia.
      apply Z.div_lt_upper_bound; lia. }
    destruct (Z.eqb_spec (n / 10) 0) as [E|_]; [lia|].
    rewrite (IH fuel (n / 10)); [cbn [String.length]; lia | lia | lia].
Qed.

Lemma toString_six (n : Z) :
  100000 <= n <= 999999 ->
  String.length (toString n) = 6%nat /\ allDigits (toString n) = true.
Proof.
  intros Hn. unfold toString.
  destruct (Z.ltb_spec n 0) as [C|_]; [lia|].
  split.
  - rewrite (digits_length 5); [reflexivity | | cbn; lia].
    pose proof (Z.log2_le_mono 100000 n ltac:(lia)) as L.
    change (Z.log2 100000) with 16 in L. lia.
  - apply digits_allDigits; [lia | reflexivity].
Qed.

(** C6.  For every draw of [Math.random()], a double at least 0 and
    below 1, the integer the generator prints lies between 100000 and
    999999, and the code it returns has exactly 6 characters, each a
    digit from 0 to 9. *)
Theorem generated_code_six_digits (random : double) :
  random_draw random = true ->
  100000 <= Math_floor (fadd (literal 100000) (fmul random (literal 900000)))
         <= 999999
  /\ String.length (generateVerificationCode random) = 6%nat
  /\ allDigits (generateVerificationCode random) = true.
Proof.
  intros Hr. pose proof (code_range random Hr) as R.
  split; [exact R|]. now apply toString_six.
Qed.

(** The largest draw, [1 - 2 ^ -53]. *)
Lemma generated_code_six_digits_witness :
  100000 <= Math_floor (fadd (literal 100000)
                             (fmul (Double (2 ^ 53 - 1) (-53)) (literal 900000)))
         <= 999999
  /\ String.length (generateVerificationCode (Double (2 ^ 53 - 1) (-53))) = 6%nat
  /\ allDigits (generateVerificationCode (Double (2 ^ 53 - 1) (-53))) = true.
Proof.
  apply (generated_code_six_digits (Double (2 ^ 53 - 1) (-53))).
  vm_compute. reflexivity.
Defined.

(** The mock handler prints its code with the same expression. *)
Lemma mock_login_code (NODE_ENV DATABASE_URL SMTP_USER : option string)
    (w : World) (email : string) (code : option string) :
  (exists p, email = p ++ "@nextest.com.br") ->
  mock.handler NODE_ENV DATABASE_URL SMTP_USER w
    {| mock.method := "POST";
       mock.pathname := Some "/api/auth/login";
       mock.body := Some {| mock.email := Some email; mock.code := code |} |}
  = {| mock.status := 200;
       mock.body_ :=
         mock.LoginOk "Código de verificação gerado (mock)"
                      (generateVerificationCode (Math_random w)) email
                      "Este é um teste - banco não conectado ainda" |}.
Proof.
  intros Hd. pose proof (domain_email_accepted email Hd) as A.
  apply orb_false_iff in A. destruct A as [A1 A2].
  unfold mock.handler, generateVerificationCode.
  cbn -[truthy endsWith fadd fmul literal Math_floor toString].
  rewrite A1, A2. cbn [negb]. reflexivity.
Qed.

(** The right code, submitted after the row has expired. *)
Lemma verify_accepts_iff_witness :
  auth_verify (at_time 6000 true) one_pending None "ana@nextest.com.br" "123456"
  = (one_pending, None, invalid_code).
Proof.
  apply (verify_accepts_iff (at_time 6000 true) one_pending None
           "ana@nextest.com.br" "123456").
  intros r [<-|[]] _ _. cbn. lia.
Defined.

(* ================================================================== *)
(** * Part III: further properties of the handlers                     *)
(* ================================================================== *)

(** ** Code issuance: unknown users and the mail transport *)

(** For an email of the domain, login answers 200 exactly when a user
    row holds that email; otherwise it answers 404 with the
    account-creation message and stores nothing.  The answer thus tells
    whether an account exists. *)
Theorem login_reveals_account
    (env : ProcessEnv) (w : World) (db : Db) (email : string) :
  (exists p, email = p ++ "@nextest.com.br") ->
  (status (snd (auth_login env w db (Some email))) = 200
   <-> exists u, In u (users_rows db) /\ users.email u = email)
  /\ ((forall u, In u (users_rows db) -> users.email u <> email) ->
      auth_login env w db (Some email)
      = (db, {| status := 404;
                body := BMessage
                          "Usuário não encontrado. Crie uma conta primeiro." |})).
Proof.
  intros Hd.
  assert ((forall u, In u (users_rows db) -> users.email u <> email) ->
          auth_login env w db (Some email) = (db, user_not_found)) as Hnone.
  { intros Hno. unfold auth_login. rewrite (domain_email_accepted email Hd).
    destruct (select_users_by_email email (users_rows db)) as [|u l] eqn:E;
      [reflexivity|]. exfalso.
    assert (In u (select_users_by_email email (users_rows db))) as Hu
      by (rewrite E; now left).
    apply filter_In in Hu. destruct Hu as [Hin He].
    apply String.eqb_eq in He. exact (Hno u Hin He). }
  split; [|exact Hnone]. split.
  - intros Hok.
    destruct (select_users_by_email email (users_rows db)) as [|u l] eqn:E.
    + unfold auth_login in Hok. rewrite (domain_email_accepted email Hd), E in Hok.
      discriminate.
    + exists u.
      assert (In u (select_users_by_email email (users_rows db))) as Hu
        by (rewrite E; now left).
      apply filter_In in Hu. destruct Hu as [Hin He].
      apply String.eqb_eq in He. now split.
  - intros [u [Hin He]]. now rewrite (login_success env w db email u Hd Hin He).
Qed.

Lemma login_reveals_account_witness :
  auth_login development (at_time 0 true) only_ana (Some "bob@nextest.com.br")
  = (only_ana,
     {| status := 404;
        body := BMessage "Usuário não encontrado. Crie uma conta primeiro." |}).
Proof.
  apply (login_reveals_account development (at_time 0 true) only_ana
           "bob@nextest.com.br").
  - exists "bob". reflexivity.
  - intros u [<-|[]]. discriminate.
Defined.

(** When either SMTP credential is absent or empty no transporter
    exists: a login that passes the checks then answers 200 with the
    message that the code was sent, without [debugCode], whatever the
    mail transport would have done; the code is stored all the same. *)
Theorem login_without_transporter_reports_sent
    (env : ProcessEnv) (w : World) (db : Db) (email : string) (u : users.row) :
  (exists p, email = p ++ "@nextest.com.br") ->
  In u (users_rows db) -> users.email u = email ->
  truthy (SMTP_USER env) = false \/ truthy (SMTP_PASS env) = false ->
  snd (auth_login env w db (Some email))
  = {| status := 200; body := BMessage "Código de verificação enviado" |}
  /\ List.length (codes_rows (fst (auth_login env w db (Some email))))
     = S (List.length (codes_rows db)).
Proof.
  intros Hd Hin He Hcred. rewrite (login_success env w db email u Hd Hin He).
  cbn [fst snd codes_rows]. split.
  - now rewrite sendVerificationCode_resolves.
  - unfold insert_code. rewrite length_app. cbn. lia.
Qed.

Lemma login_without_transporter_reports_sent_witness :
  snd (auth_login development (at_time 0 false) only_ana (Some "ana@nextest.com.br"))
  = {| status := 200; body := BMessage "Código de verificação enviado" |}.
Proof.
  apply (login_without_transporter_reports_sent development (at_time 0 false)
           only_ana "ana@nextest.com.br" ana).
  - exists "ana". reflexivity.
  - simpl. left. reflexivity.
  - reflexivity.
  - left. reflexivity.
Defined.



(** ** The table of codes over time *)

Lemma kept_refl (x : verificationCodes.row) : kept x x.
Proof. unfold kept. tauto. Qed.

Lemma kept_trans (x y z : verificationCodes.row) :
  kept x y -> kept y z -> kept x z.
Proof.
  unfold kept. intros (A1 & A2 & A3 & A4 & A5 & A6) (B1 & B2 & B3 & B4 & B5 & B6).
  repeat split; try congruence. auto.
Qed.

Lemma Forall2_kept_refl (l : list verificationCodes.row) : Forall2 kept l l.
Proof. induction l; constructor; auto using kept_refl. Qed.

Lemma Forall2_kept_trans (l1 l2 l3 : list verificationCodes.row) :
  Forall2 kept l1 l2 -> Forall2 kept l2 l3 -> Forall2 kept l1 l3.
Proof.
  intros H. revert l3. induction H as [|x y l1 l2 Hxy H IH]; intros l3 H3;
    inversion H3; subst; constructor; eauto using kept_trans.
Qed.

Lemma Forall2_In_right {A B : Type} (R : A -> B -> Prop) (l : list A)
    (l' : list B) (y : B) :
  Forall2 R l l' -> In y l' -> exists x, In x l /\ R x y.
Proof.
  induction 1 as [|a b l l' Hab H IH]; intros Hin; [destruct Hin|].
  destruct Hin as [<-|Hin].
  - exists a. split; [now left | exact Hab].
  - destruct (IH Hin) as [x [Hx Rx]]. exists x. split; [now right | exact Rx].
Qed.

Lemma mark_used_kept (key : N) (rows : list verificationCodes.row) :
  Forall2 kept rows (mark_used key rows).
Proof.
  unfold mark_used. induction rows as [|x rows IH]; cbn [map]; constructor;
    [|exact IH].
  destruct (verificationCodes.id x =? key)%N; [|apply kept_refl].
  unfold kept. cbn. tauto.
Qed.

(** One request keeps the users, keeps every stored code up to its used
    flag, and adds rows only at the end, none when it is a verification. *)
Lemma serve_extends (db : Db) (c : Call) :
  users_rows (serve db c) = users_rows db
  /\ exists same rest,
       codes_rows (serve db c) = (same ++ rest)%list
       /\ Forall2 kept (codes_rows db) same
       /\ (is_verify c = true -> rest = [])
       /\ (is_login c = true -> same = codes_rows db).
Proof.
  destruct c as [env w email|w session email code]; cbn [serve].
  - assert (users_rows db = users_rows db
            /\ exists same rest,
                 codes_rows db = (same ++ rest)%list
                 /\ Forall2 kept (codes_rows db) same
                 /\ (is_verify (Login env w email) = true -> rest = [])
                 /\ (is_login (Login env w email) = true -> same = codes_rows db))
      as Hsame.
    { split; [reflexivity|]. exists (codes_rows db), [].
      rewrite app_nil_r. repeat split; auto using Forall2_kept_refl. }
    unfold auth_login. destruct email as [e|]; [|exact Hsame].
    destruct (negb (truthy (Some e)) || negb (endsWith e "@nextest.com.br"));
      [exact Hsame|].
    destruct (select_users_by_email e (users_rows db)); [exact Hsame|].
    destruct (sendVerificationCode env w); cbn [fst users_rows codes_rows];
      (split; [reflexivity|]); unfold insert_code;
      eexists _, _; (split; [reflexivity|]);
      repeat split; auto using Forall2_kept_refl; discriminate.
  - unfold auth_verify.
    destruct (select_codes (Date_now w) email code (codes_rows db)) as [|r l];
      cbn [fst users_rows codes_rows]; (split; [reflexivity|]).
    + exists (codes_rows db), []. rewrite app_nil_r.
      repeat split; auto using Forall2_kept_refl.
    + exists (mark_used (verificationCodes.id r) (codes_rows db)), [].
      rewrite app_nil_r. repeat split; auto using mark_used_kept.
      discriminate.
Qed.

(** In the model, where an update keeps a row in its place, the table
    after a sequence of requests is the old rows, each kept, followed by
    the added ones. *)
Lemma serve_all_extends (calls : list Call) (db : Db) :
  users_rows (serve_all db calls) = users_rows db
  /\ exists same rest,
       codes_rows (serve_all db calls) = (same ++ rest)%list
       /\ Forall2 kept (codes_rows db) same
       /\ (forallb is_verify calls = true -> rest = []).
Proof.
  unfold serve_all. revert db.
  induction calls as [|c calls IH]; intros db; cbn [fold_left forallb].
  - split; [reflexivity|]. exists (codes_rows db), [].
    rewrite app_nil_r. repeat split; auto using Forall2_kept_refl.
  - destruct (serve_extends db c) as [Hu (s1 & r1 & E1 & K1 & V1 & _)].
    destruct (IH (serve db c)) as [Hu' (s2 & r2 & E2 & K2 & V2)].
    split; [congruence|].
    rewrite E1 in K2. apply Forall2_app_inv_l in K2.
    destruct K2 as (s1' & r1' & Ks & Kr & ->).
    exists s1', (r1' ++ r2)%list. split; [now rewrite E2, app_assoc|].
    split; [eauto using Forall2_kept_trans|].
    intros Hv. apply andb_true_iff in Hv. destruct Hv as [Hc Hcalls].
    rewrite (V2 Hcalls), (V1 Hc) in *. inversion Kr. reflexivity.
Qed.

(** No request deletes or rewrites a stored code.  After any sequence of
    logins and verifications the users are the same, and the rows of the
    table, in whatever order, are the rows it held before, each with the
    same id, email, code, expiry and creation time and still used if it
    was used, together with the rows that logins added; a sequence of
    verifications adds none. *)
Theorem history_preserved (calls : list Call) (db : Db) :
  users_rows (serve_all db calls) = users_rows db
  /\ exists same added,
       Permutation (codes_rows (serve_all db calls)) (same ++ added)
       /\ Forall2 kept (codes_rows db) same
       /\ (forallb is_verify calls = true -> added = [])
       /\ (forall x, In x (codes_rows db) ->
                     exists x', In x' (codes_rows (serve_all db calls))
                                /\ kept x x').
Proof.
  destruct (serve_all_extends calls db) as [Hu (same & rest & E & K & V)].
  split; [exact Hu|]. exists same, rest.
  split; [now rewrite E|]. split; [exact K|]. split; [exact V|].
  intros x Hx. rewrite E. clear E V.
  induction K as [|a b l l' Hab K IH]; [destruct Hx|].
  destruct Hx as [<-|Hx].
  - exists b. split; [now left | exact Hab].
  - destruct (IH Hx) as [x' [Hin Hk]]. exists x'. split; [now right | exact Hk].
Qed.

(** Used and expired are final: when a pair is refused, no sequence of
    verifications, of any emails and codes, makes a later attempt with
    that pair succeed. *)
Theorem verifications_never_revive
    (calls : list Call) (w w' : World) (db : Db) (session session' : Session)
    (email code : string) :
  forallb is_verify calls = true ->
  status (snd (auth_verify w db session email code)) <> 200 ->
  Date_now w <= Date_now w' ->
  auth_verify w' (serve_all db calls) session' email code
  = (serve_all db calls, session', invalid_code).
Proof.
  intros Hv Hfail Hlater.
  destruct (serve_all_extends calls db) as [_ (same & rest & E & K & V)].
  rewrite (V Hv), app_nil_r in E.
  apply verify_not_found.
  destruct (select_codes (Date_now w') email code
              (codes_rows (serve_all db calls))) as [|y l] eqn:Sel;
    [reflexivity|]. exfalso. apply Hfail.
  assert (In y (select_codes (Date_now w') email code
                  (codes_rows (serve_all db calls)))) as Hy
    by (rewrite Sel; now left).
  apply select_codes_In in Hy. destruct Hy as (Hyin & He & Hc & Hu & Hlt).
  rewrite E in Hyin.
  destruct (Forall2_In_right kept _ _ y K Hyin)
    as [x [Hx (_ & Ke & Kc & Kx & _ & Ku)]].
  assert (In x (select_codes (Date_now w) email code (codes_rows db))) as Hsel.
  { apply select_codes_In. repeat split; try congruence; [|lia].
    destruct (verificationCodes.used x); [|reflexivity].
    rewrite Ku in Hu by reflexivity. discriminate. }
  destruct (select_codes (Date_now w) email code (codes_rows db)) as [|r l0] eqn:S0;
    [destruct Hsel|].
  rewrite (verify_found _ _ _ _ _ _ _ S0). reflexivity.
Qed.

Lemma verifications_never_revive_witness :
  auth_verify (at_time 7000 true)
    (serve_all one_pending
       [ Verify (at_time 6500 true) None "ana@nextest.com.br" "000000";
         Verify (at_time 6600 true) None "ana@nextest.com.br" "123456" ])
    None "ana@nextest.com.br" "123456"
  = (serve_all one_pending
       [ Verify (at_time 6500 true) None "ana@nextest.com.br" "000000";
         Verify (at_time 6600 true) None "ana@nextest.com.br" "123456" ],
     None, invalid_code).
Proof.
  apply (verifications_never_revive _ (at_time 6000 true) _ _ None).
  - reflexivity.
  - cbn. discriminate.
  - cbn. lia.
Defined.

(** ** Issuing and then verifying *)

Lemma select_codes_app (now : Z) (email code : string)
    (l1 l2 : list verificationCodes.row) :
  select_codes now email code (l1 ++ l2)
  = (select_codes now email code l1 ++ select_codes now email code l2)%list.
Proof. unfold select_codes. apply filter_app. Qed.

Lemma logins_append (calls : list Call) (db : Db) :
  forallb is_login calls = true ->
  exists rest, codes_rows (serve_all db calls) = (codes_rows db ++ rest)%list.
Proof.
  unfold serve_all. revert db.
  induction calls as [|c calls IH]; intros db Hl; cbn [fold_left forallb] in *.
  - exists []. now rewrite app_nil_r.
  - apply andb_true_iff in Hl. destruct Hl as [Hc Hcalls].
    destruct (serve_extends db c) as [_ (s1 & r1 & E1 & _ & _ & L1)].
    destruct (IH (serve db c) Hcalls) as [r2 E2].
    rewrite E2, E1, (L1 Hc). exists (r1 ++ r2)%list. now rewrite app_assoc.
Qed.

(** A new code does not invalidate the earlier ones: logins only add
    rows after the existing ones, so a pair that verifies before a
    sequence of logins, for any emails, verifies after it as well. *)
Theorem logins_keep_earlier_codes
    (calls : list Call) (w : World) (db : Db) (session : Session)
    (email code : string) :
  forallb is_login calls = true ->
  status (snd (auth_verify w db session email code)) = 200 ->
  status (snd (auth_verify w (serve_all db calls) session email code)) = 200.
Proof.
  intros Hl Hok. destruct (logins_append calls db Hl) as [rest E].
  destruct (select_codes (Date_now w) email code (codes_rows db)) as [|r l] eqn:S0.
  { rewrite (verify_not_found _ _ _ _ _ S0) in Hok. discriminate. }
  assert (select_codes (Date_now w) email code (codes_rows (serve_all db calls))
          = r :: (l ++ select_codes (Date_now w) email code rest)%list) as S1
    by now rewrite E, select_codes_app, S0.
  rewrite (verify_found _ _ _ _ _ _ _ S1). reflexivity.
Qed.

Lemma logins_keep_earlier_codes_witness :
  status (snd (auth_verify (at_time 2000 true)
                 (serve_all one_pending
                    [ Login development (at_time 1000 true)
                            (Some "ana@nextest.com.br") ])
                 None "ana@nextest.com.br" "123456")) = 200.
Proof.
  apply (logins_keep_earlier_codes
           [ Login development (at_time 1000 true) (Some "ana@nextest.com.br") ]
           (at_time 2000 true) one_pending None "ana@nextest.com.br" "123456").
  - reflexivity.
  - reflexivity.
Defined.

(** The row a login stores is acceptable for its own email and code
    until its expiry, and not from then on. *)
Lemma select_new_row (now defaultNow expiresAt : Z) (email code : string)
    (rows : list verificationCodes.row) :
  select_codes now email code (insert_code defaultNow email code expiresAt rows)
  = (select_codes now email code rows
     ++ if now <? expiresAt
        then [ {| verificationCodes.id := gen_random_uuid rows;
                  verificationCodes.email := email;
                  verificationCodes.code := code;
                  verificationCodes.expiresAt := expiresAt;
                  verificationCodes.used := false;
                  verificationCodes.createdAt := defaultNow |} ]
        else [])%list.
Proof.
  unfold insert_code. rewrite select_codes_app. f_equal.
  unfold select_codes, acceptable. cbn [filter verificationCodes.email
    verificationCodes.code verificationCodes.used verificationCodes.expiresAt].
  rewrite !String.eqb_refl. cbn [Bool.eqb andb].
  now destruct (now <? expiresAt).
Qed.

Lemma unissued_select (now : Z) (email code : string)
    (rows : list verificationCodes.row) :
  unissued email code rows -> select_codes now email code rows = [].
Proof.
  intros Hun.
  destruct (select_codes now email code rows) as [|r l] eqn:E; [reflexivity|].
  exfalso.
  assert (In r (select_codes now email code rows)) as Hr by (rewrite E; now left).
  apply select_codes_In in Hr. destruct Hr as (Hin & He & Hc & _).
  exact (Hun r Hin (conj He Hc)).
Qed.

(** A code issued by a login verifies at any time before its expiry,
    ten minutes after the issuance: the answer is 200 with the first
    user holding that email, and the session takes that user's id. *)
Theorem login_then_verify
    (env : ProcessEnv) (w w' : World) (db : Db) (session : Session)
    (email : string) (u : users.row) :
  (exists p, email = p ++ "@nextest.com.br") ->
  In u (users_rows db) -> users.email u = email ->
  Date_now w' < Date_now w + 10 * 60 * 1000 ->
  exists u0,
    In u0 (users_rows db) /\ users.email u0 = email
    /\ snd (auth_verify w' (fst (auth_login env w db (Some email))) session
                        email (generateVerificationCode (Math_random w)))
       = {| status := 200; body := BUser (Some u0) |}
    /\ snd (fst (auth_verify w' (fst (auth_login env w db (Some email))) session
                             email (generateVerificationCode (Math_random w))))
       = Some (users.id u0).
Proof.
  intros Hd Hin He Hlt. rewrite (login_success env w db email u Hd Hin He).
  cbn [fst].
  pose proof (select_users_nonempty email _ u Hin He) as Hne.
  destruct (select_users_by_email email (users_rows db)) as [|u0 l] eqn:Eu;
    [congruence|].
  assert (In u0 (select_users_by_email email (users_rows db))) as Hu0
    by (rewrite Eu; now left).
  apply filter_In in Hu0. destruct Hu0 as [Hu0in Hu0e].
  apply String.eqb_eq in Hu0e.
  exists u0. split; [exact Hu0in|]. split; [exact Hu0e|].
  unfold auth_verify. cbn [codes_rows users_rows].
  rewrite select_new_row. apply Z.ltb_lt in Hlt. rewrite Hlt.
  destruct (select_codes (Date_now w') email
              (generateVerificationCode (Math_random w)) (codes_rows db));
    cbn [app]; cbn [fst snd users_rows]; rewrite Eu; split; reflexivity.
Qed.

Lemma login_then_verify_witness :
  exists u0,
    In u0 [ana] /\ users.email u0 = "ana@nextest.com.br"
    /\ snd (auth_verify (at_time 599999 true)
              (fst (auth_login development (at_time 0 true) only_ana
                               (Some "ana@nextest.com.br")))
              None "ana@nextest.com.br"
              (generateVerificationCode (Math_random (at_time 0 true))))
       = {| status := 200; body := BUser (Some u0) |}
    /\ snd (fst (auth_verify (at_time 599999 true)
                   (fst (auth_login development (at_time 0 true) only_ana
                                    (Some "ana@nextest.com.br")))
                   None "ana@nextest.com.br"
                   (generateVerificationCode (Math_random (at_time 0 true)))))
       = Some (users.id u0).
Proof.
  apply (login_then_verify development (at_time 0 true) (at_time 599999 true)
           only_ana None "ana@nextest.com.br" ana).
  - exists "ana". reflexivity.
  - simpl. left. reflexivity.
  - reflexivity.
  - cbn. lia.
Defined.

Lemma spent_select (now : Z) (email code : string)
    (rows : list verificationCodes.row) :
  spent email code rows -> select_codes now email code rows = [].
Proof.
  intros Hs.
  destruct (select_codes now email code rows) as [|r l] eqn:E; [reflexivity|].
  exfalso.
  assert (In r (select_codes now email code rows)) as Hr by (rewrite E; now left).
  apply select_codes_In in Hr. destruct Hr as (Hin & He & Hc & Hu & _).
  rewrite (Hs r Hin He Hc) in Hu. discriminate.
Qed.

Lemma spent_mark_used (email code : string) (key : N)
    (rows : list verificationCodes.row) :
  spent email code rows -> spent email code (mark_used key rows).
Proof.
  intros Hs y Hy He Hc.
  destruct (Forall2_In_right kept _ _ y (mark_used_kept key rows) Hy)
    as [x [Hx (_ & Ke & Kc & _ & _ & Ku)]].
  apply Ku. apply (Hs x Hx); congruence.
Qed.

Lemma spent_serve (email code : string) (db : Db) (c : Call) :
  reissues email code c = false ->
  spent email code (codes_rows db) ->
  spent email code (codes_rows (serve db c)).
Proof.
  intros Hre Hs. destruct c as [env w request|w session email' code'];
    cbn [serve].
  - unfold auth_login. destruct request as [e|]; [|exact Hs].
    destruct (negb (truthy (Some e)) || negb (endsWith e "@nextest.com.br"));
      [exact Hs|].
    destruct (select_users_by_email e (users_rows db)); [exact Hs|].
    assert (spent email code
              (insert_code (defaultNow w) e
                 (generateVerificationCode (Math_random w))
                 (Date_now w + 10 * 60 * 1000) (codes_rows db))) as Hins.
    { intros y Hy He Hc. unfold insert_code in Hy. apply in_app_or in Hy.
      destruct Hy as [Hy|[<-|[]]]; [now apply Hs|].
      cbn in He, Hc. cbn [reissues] in Hre.
      apply String.eqb_eq in He, Hc. rewrite He, Hc in Hre. discriminate. }
    destruct (sendVerificationCode env w); exact Hins.
  - unfold auth_verify.
    destruct (select_codes (Date_now w) email' code' (codes_rows db));
      [exact Hs|].
    cbn [fst codes_rows]. now apply spent_mark_used.
Qed.

Lemma spent_serve_all (email code : string) (calls : list Call) (db : Db) :
  forallb (fun c => negb (reissues email code c)) calls = true ->
  spent email code (codes_rows db) ->
  spent email code (codes_rows (serve_all db calls)).
Proof.
  unfold serve_all. revert db.
  induction calls as [|c calls IH]; intros db Hall Hs; cbn [fold_left forallb] in *;
    [exact Hs|].
  apply andb_true_iff in Hall. destruct Hall as [Hc Hall].
  apply IH; [exact Hall|]. apply spent_serve; [|exact Hs].
  now apply negb_true_iff.
Qed.

(** The life of one code.  When the table holds no row with the email
    and the code a login issues: from the expiry on the code is refused;
    before it the code is accepted, and from that acceptance on every
    attempt with the pair is refused, at any time and after any further
    logins and verifications, as long as no later login issues the same
    code for the same email. *)
Theorem issued_code_verifies_once
    (env : ProcessEnv) (w w' : World) (db : Db)
    (session : Session) (email : string) (u : users.row) :
  (exists p, email = p ++ "@nextest.com.br") ->
  In u (users_rows db) -> users.email u = email ->
  unissued email (generateVerificationCode (Math_random w)) (codes_rows db) ->
  let code := generateVerificationCode (Math_random w) in
  let db1 := fst (auth_login env w db (Some email)) in
  (Date_now w + 10 * 60 * 1000 <= Date_now w' ->
   auth_verify w' db1 session email code = (db1, session, invalid_code))
  /\ (Date_now w' < Date_now w + 10 * 60 * 1000 ->
      status (snd (auth_verify w' db1 session email code)) = 200
      /\ forall calls w'' session'',
           forallb (fun c => negb (reissues email code c)) calls = true ->
           snd (auth_verify w''
                  (serve_all (fst (fst (auth_verify w' db1 session email code)))
                             calls)
                  session'' email code)
           = invalid_code).
Proof.
  intros Hd Hin He Hun code db1. subst code db1.
  rewrite (login_success env w db email u Hd Hin He). cbn [fst].
  set (code := generateVerificationCode (Math_random w)) in *.
  set (expiry := Date_now w + 10 * 60 * 1000).
  set (new := {| verificationCodes.id := gen_random_uuid (codes_rows db);
                 verificationCodes.email := email;
                 verificationCodes.code := code;
                 verificationCodes.expiresAt := expiry;
                 verificationCodes.used := false;
                 verificationCodes.createdAt := defaultNow w |}).
  assert (forall now,
             select_codes now email code
               (insert_code (defaultNow w) email code expiry (codes_rows db))
             = if now <? expiry then [new] else []) as Sel.
  { intros now. rewrite select_new_row, (unissued_select now email code _ Hun).
    reflexivity. }
  split.
  - intros Hexp. apply verify_not_found. cbn [codes_rows]. rewrite Sel.
    apply Z.ltb_ge in Hexp. now rewrite Hexp.
  - intros Hlt. apply Z.ltb_lt in Hlt.
    pose proof (Sel (Date_now w')) as S1. rewrite Hlt in S1.
    erewrite verify_found by (cbn [codes_rows]; exact S1).
    cbn [fst snd status json]. split; [reflexivity|].
    intros calls w'' session'' Hall.
    rewrite verify_not_found; [reflexivity|].
    apply spent_select, spent_serve_all; [exact Hall|]. cbn [codes_rows].
    intros y Hy Hye Hyc. unfold mark_used in Hy. apply in_map_iff in Hy.
    destruct Hy as [x [Hxy Hx]]. unfold insert_code in Hx.
    apply in_app_or in Hx. destruct Hx as [Hx|[<-|[]]].
    + exfalso. apply (Hun x Hx).
      destruct (verificationCodes.id x =? verificationCodes.id new)%N;
        subst y; cbn in Hye, Hyc; now split.
    + rewrite N.eqb_refl in Hxy. subst y. reflexivity.
Qed.

Lemma issued_code_verifies_once_witness :
  auth_verify (at_time 600000 true)
    (fst (auth_login development (at_time 0 true) only_ana
                     (Some "ana@nextest.com.br")))
    None "ana@nextest.com.br"
    (generateVerificationCode (Math_random (at_time 0 true)))
  = (fst (auth_login development (at_time 0 true) only_ana
                     (Some "ana@nextest.com.br")),
     None, invalid_code).
Proof.
  apply (issued_code_verifies_once development (at_time 0 true)
           (at_time 600000 true) only_ana None
           "ana@nextest.com.br" ana).
  - exists "ana". reflexivity.
  - simpl. left. reflexivity.
  - reflexivity.
  - intros r [].
  - cbn. lia.
Defined.

(** ** The session *)

Ltac break_hyps :=
  repeat match goal with
         | H : _ /\ _ |- _ => destruct H
         | H : exists _, _ |- _ => destruct H
         end.

(** [/api/auth/me] answers 401 exactly when the session holds no user id
    or an empty one, 404 exactly when it holds an id that no user has,
    and otherwise 200 with a user whose id is the session's. *)
Theorem auth_me_status (db : Db) (session : Session) :
  (status (auth_me db session) = 401 <-> truthy session = false)
  /\ (status (auth_me db session) = 404
      <-> truthy session = true
          /\ forall u, In u (users_rows db) -> Some (users.id u) <> session)
  /\ (status (auth_me db session) = 200
      <-> exists u, In u (users_rows db) /\ truthy session = true
                    /\ Some (users.id u) = session)
  /\ (forall u, body (auth_me db session) = BUser u ->
                exists u', u = Some u' /\ In u' (users_rows db)
                           /\ Some (users.id u') = session).
Proof.
  unfold auth_me. destruct session as [k|]; cbn [truthy negb].
  2:{ cbn. repeat split; intros; break_hyps; try discriminate; auto. }
  destruct (String.eqb k "") eqn:Ek; cbn [negb].
  { cbn. repeat split; intros; break_hyps; try discriminate; auto. }
  destruct (select_users_by_id k (users_rows db)) as [|u l] eqn:Eu.
  - assert (forall u, In u (users_rows db) -> Some (users.id u) <> Some k) as Hno.
    { intros u Hin [= E].
      assert (In u (select_users_by_id k (users_rows db))) as Hu
        by (apply filter_In; split; [exact Hin | now apply String.eqb_eq]).
      rewrite Eu in Hu. exact Hu. }
    cbn. repeat split; try discriminate; auto.
    intros [u [Hin [_ E]]]. exfalso. exact (Hno u Hin E).
  - assert (In u (users_rows db) /\ users.id u = k) as [Hin Hid].
    { assert (In u (select_users_by_id k (users_rows db))) as Hu
        by (rewrite Eu; now left).
      apply filter_In in Hu. destruct Hu as [Hin E].
      apply String.eqb_eq in E. now split. }
    cbn. repeat split; try discriminate.
    + intros [_ Hno]. exfalso. apply (Hno u Hin). now rewrite Hid.
    + intros _. exists u. rewrite Hid. now repeat split.
    + intros u0 [= <-]. exists u. rewrite Hid. now repeat split.
Qed.

(** A successful verification logs the first user with the submitted
    email in: when that user's id is not empty, [/api/auth/me] with the
    new session answers 200 with a user of the same id.  When no user
    has the email, the verification still answers 200, with no user, and
    the session loses its user id, so that [/api/auth/me] answers 401. *)
Theorem verify_then_me
    (w : World) (db : Db) (session : Session) (email code : string) :
  status (snd (auth_verify w db session email code)) = 200 ->
  (forall u0,
     hd_error (select_users_by_email email (users_rows db)) = Some u0 ->
     users.id u0 <> "" ->
     snd (auth_verify w db session email code)
     = {| status := 200; body := BUser (Some u0) |}
     /\ exists u1,
          auth_me (fst (fst (auth_verify w db session email code)))
                  (snd (fst (auth_verify w db session email code)))
          = {| status := 200; body := BUser (Some u1) |}
          /\ users.id u1 = users.id u0)
  /\ ((forall u, In u (users_rows db) -> users.email u <> email) ->
      snd (auth_verify w db session email code)
      = {| status := 200; body := BUser None |}
      /\ snd (fst (auth_verify w db session email code)) = None
      /\ status (auth_me (fst (fst (auth_verify w db session email code)))
                         (snd (fst (auth_verify w db session email code))))
         = 401).
Proof.
  intros Hok.
  destruct (select_codes (Date_now w) email code (codes_rows db)) as [|r l] eqn:E.
  { rewrite (verify_not_found _ _ _ _ _ E) in Hok. discriminate. }
  rewrite (verify_found _ _ _ _ _ _ _ E). cbn [fst snd]. split.
  - intros u0 Hu0 Hid. rewrite Hu0. cbn [option_map]. split; [reflexivity|].
    unfold auth_me. cbn [truthy users_rows].
    apply String.eqb_neq in Hid. rewrite Hid. cbn [negb].
    destruct (select_users_by_id (users.id u0) (users_rows db)) as [|u1 l1] eqn:E1.
    + exfalso.
      assert (In u0 (select_users_by_email email (users_rows db))) as Hin.
      { destruct (select_users_by_email email (users_rows db)); [discriminate|].
        injection Hu0 as ->. now left. }
      apply filter_In in Hin. destruct Hin as [Hin _].
      assert (In u0 (select_users_by_id (users.id u0) (users_rows db))) as H1
        by (apply filter_In; split; [exact Hin | apply String.eqb_refl]).
      rewrite E1 in H1. exact H1.
    + exists u1. split; [reflexivity|].
      assert (In u1 (select_users_by_id (users.id u0) (users_rows db))) as H1
        by (rewrite E1; now left).
      apply filter_In in H1. destruct H1 as [_ H1]. now apply String.eqb_eq.
  - intros Hno.
    destruct (select_users_by_email email (users_rows db)) as [|u0 l0] eqn:E0.
    + cbn. repeat split.
    + exfalso.
      assert (In u0 (select_users_by_email email (users_rows db))) as Hin
        by (rewrite E0; now left).
      apply filter_In in Hin. destruct Hin as [Hin He].
      apply String.eqb_eq in He. exact (Hno u0 Hin He).
Qed.

Lemma verify_then_me_witness :
  snd (auth_verify (at_time 500 true) one_pending None
                   "ana@nextest.com.br" "123456")
  = {| status := 200; body := BUser (Some ana) |}
  /\ exists u1,
       auth_me (fst (fst (auth_verify (at_time 500 true) one_pending None
                                      "ana@nextest.com.br" "123456")))
               (snd (fst (auth_verify (at_time 500 true) one_pending None
                                      "ana@nextest.com.br" "123456")))
       = {| status := 200; body := BUser (Some u1) |}
       /\ users.id u1 = users.id ana.
Proof.
  apply (verify_then_me (at_time 500 true) one_pending None
           "ana@nextest.com.br" "123456").
  - reflexivity.
  - reflexivity.
  - discriminate.
Defined.

(** ** The first digit of a code *)

Lemma digits_head (k fuel : nat) (n : Z) (acc : string) :
  (S k <= fuel)%nat ->
  10 ^ Z.of_nat k <= n < 10 ^ Z.of_nat (S k) ->
  exists rest,
    digits fuel n acc = String (digitChar (n / 10 ^ Z.of_nat k)) rest.
Proof.
  revert fuel n acc. induction k as [|k IH]; intros fuel n acc Hf Hn;
    (destruct fuel as [|fuel]; [lia|]); cbn [digits].
  - change (10 ^ Z.of_nat 0) with 1 in *. change (10 ^ Z.of_nat 1) with 10 in Hn.
    rewrite Z.div_small, Z.div_1_r, Z.mod_small by lia. eexists. reflexivity.
  - rewrite !Nat2Z.inj_succ, !Z.pow_succ_r in Hn by lia.
    assert (0 < 10 ^ Z.of_nat k) as Pk by (apply Z.pow_pos_nonneg; lia).
    assert (10 ^ Z.of_nat k <= n / 10) as Lo
      by (apply Z.div_le_lower_bound; lia).
    assert (n / 10 < 10 ^ Z.of_nat (S k)) as Hi.
    { rewrite Nat2Z.inj_succ, Z.pow_succ_r by lia.
      apply Z.div_lt_upper_bound; lia. }
    destruct (Z.eqb_spec (n / 10) 0) as [E|_]; [lia|].
    destruct (IH fuel (n / 10) (String (digitChar (n mod 10)) acc)
                ltac:(lia) (conj Lo Hi)) as [rest E].
    exists rest. rewrite E. do 2 f_equal.
    rewrite Nat2Z.inj_succ, Z.pow_succ_r, Z.div_div by lia. reflexivity.
Qed.

(** A generated code never begins with 0: its first character is a
    digit from 1 to 9, so the codes 000000 to 099999 are never issued. *)
Theorem generated_code_no_leading_zero (random : double) :
  random_draw random = true ->
  exists c rest,
    generateVerificationCode random = String c rest
    /\ isDigit c = true /\ c <> "0"%char.
Proof.
  intros Hr. pose proof (code_range random Hr) as R.
  unfold generateVerificationCode.
  set (n := Math_floor (fadd (literal 100000) (fmul random (literal 900000)))) in *.
  unfold toString. destruct (Z.ltb_spec n 0) as [C|_]; [lia|].
  destruct (digits_head 5 (S (Z.to_nat (Z.log2 n))) n "") as [rest E].
  - pose proof (Z.log2_le_mono 100000 n ltac:(lia)) as L.
    change (Z.log2 100000) with 16 in L. lia.
  - cbn. lia.
  - exists (digitChar (n / 10 ^ Z.of_nat 5)), rest. split; [exact E|].
    change (10 ^ Z.of_nat 5) with 100000.
    assert (1 <= n / 100000 <= 9) as D.
    { split; [apply Z.div_le_lower_bound; lia|].
      assert (n / 100000 < 10); [apply Z.div_lt_upper_bound; lia | lia]. }
    split; [apply isDigit_digitChar; lia|].
    set (d := n / 100000) in *.
    assert (d = 1 \/ d = 2 \/ d = 3 \/ d = 4 \/ d = 5 \/ d = 6 \/ d = 7
            \/ d = 8 \/ d = 9) as Cases by lia.
    repeat (destruct Cases as [->|Cases]; [discriminate|]).
    subst d. rewrite Cases. discriminate.
Qed.

Lemma generated_code_no_leading_zero_witness :
  exists c rest,
    generateVerificationCode (Double 0 0) = String c rest
    /\ isDigit c = true /\ c <> "0"%char.
Proof.
  apply (generated_code_no_leading_zero (Double 0 0)).
  vm_compute. reflexivity.
Defined.

(** ** Routes of the mock handler *)

(** A preflight request is answered before anything is read: method
    OPTIONS gets 200 with an empty body for every path and body, also
    when the URL cannot be parsed.  Any other request whose URL cannot be
    parsed gets 500 with the generic message. *)
Theorem mock_preflight_and_bad_url
    (NODE_ENV DATABASE_URL SMTP_USER : option string) (w : World)
    (method : string) (pathname : option string) (body : option mock.ReqBody) :
  (method = "OPTIONS" ->
   mock.handler NODE_ENV DATABASE_URL SMTP_USER w
     {| mock.method := method; mock.pathname := pathname; mock.body := body |}
   = {| mock.status := 200; mock.body_ := mock.End_ |})
  /\ (method <> "OPTIONS" ->
      mock.handler NODE_ENV DATABASE_URL SMTP_USER w
        {| mock.method := method; mock.pathname := None; mock.body := body |}
      = {| mock.status := 500;
           mock.body_ := mock.InternalError "Erro interno do servidor" |}).
Proof.
  unfold mock.handler. cbn [mock.method mock.pathname]. split.
  - intros ->. reflexivity.
  - intros Hm. apply String.eqb_neq in Hm. now rewrite Hm.
Qed.

(** The login and verify routes exist for POST only, and there is no
    other route but the health check: any other method on them, and any
    other path, gets 404 with the path and the method echoed. *)
Theorem mock_unknown_route
    (NODE_ENV DATABASE_URL SMTP_USER : option string) (w : World)
    (method path : string) (body : option mock.ReqBody) :
  method <> "OPTIONS" -> path <> "/api/health" ->
  method <> "POST"
  \/ (path <> "/api/auth/login" /\ path <> "/api/auth/verify") ->
  mock.handler NODE_ENV DATABASE_URL SMTP_USER w
    {| mock.method := method; mock.pathname := Some path; mock.body := body |}
  = {| mock.status := 404;
       mock.body_ :=
         mock.NotFound "Endpoint não encontrado" path method
           ["/api/health"; "/api/auth/login"; "/api/auth/verify"] |}.
Proof.
  intros Hm Hh Hr. unfold mock.handler. cbn [mock.method mock.pathname].
  apply String.eqb_neq in Hm, Hh. rewrite Hm, Hh.
  destruct Hr as [Hp|[Hl Hv]].
  - apply String.eqb_neq in Hp. rewrite Hp, !andb_false_r. reflexivity.
  - apply String.eqb_neq in Hl, Hv. rewrite Hl, Hv. reflexivity.
Qed.

Lemma mock_unknown_route_witness :
  mock.status
    (mock.handler None None None (at_time 0 true)
       {| mock.method := "GET"; mock.pathname := Some "/api/auth/verify";
          mock.body := None |})
  = 404.
Proof.
  rewrite (mock_unknown_route None None None (at_time 0 true)
             "GET" "/api/auth/verify" None).
  - reflexivity.
  - discriminate.
  - discriminate.
  - left. discriminate.
Defined.

(** The mock verification refuses with 400 in exactly two ways: the
    message that email and code are required when either is absent or
    empty, and the message about 6 digits when both are there and the
    code has another length. *)
Theorem mock_verify_refusals
    (NODE_ENV DATABASE_URL SMTP_USER : option string) (w : World)
    (email code : option string) :
  let response :=
    mock.handler NODE_ENV DATABASE_URL SMTP_USER w
      {| mock.method := "POST"; mock.pathname := Some "/api/auth/verify";
         mock.body := Some {| mock.email := email; mock.code := code |} |} in
  (truthy email = false \/ truthy code = false ->
   response = {| mock.status := 400;
                 mock.body_ := mock.Message "Email e código são obrigatórios" |})
  /\ (forall e c,
        email = Some e -> code = Some c -> e <> "" -> c <> "" ->
        String.length c <> 6%nat ->
        response = {| mock.status := 400;
                      mock.body_ := mock.Message "Código deve ter 6 dígitos" |})
  /\ (mock.status response = 200
      <-> exists e c, email = Some e /\ code = Some c /\ e <> ""
                      /\ String.length c = 6%nat).
Proof.
  unfold mock.handler. cbn -[truthy String.length Nat.eqb]. split; [|split].
  - intros H. destruct email as [e|], code as [c|]; try reflexivity.
    destruct H as [-> | ->]; [reflexivity|]. rewrite orb_true_r. reflexivity.
  - intros e c -> -> He Hc Hlen.
    apply truthy_Some in He, Hc. rewrite He, Hc. cbn [negb orb].
    apply Nat.eqb_neq in Hlen. rewrite Hlen. reflexivity.
  - destruct email as [e|], code as [c|]; cbn [mock.status];
      try (split; [discriminate | intros (? & ? & ? & ?); break_hyps; discriminate]).
    destruct (truthy (Some e)) eqn:Te, (truthy (Some c)) eqn:Tc; cbn [negb orb].
    + destruct (Nat.eqb_spec (String.length c) 6) as [L|L]; cbn [negb mock.status].
      * split; [intros _|reflexivity]. exists e, c. repeat split; auto.
        now apply truthy_Some.
      * split; [discriminate|]. intros (e' & c' & [= <-] & [= <-] & _ & L').
        contradiction.
    + split; [discriminate|]. intros (e' & c' & [= <-] & [= <-] & _ & L').
      destruct c; [discriminate L' | discriminate Tc].
    + split; [discriminate|]. intros (e' & c' & [= <-] & [= <-] & He & _).
      apply truthy_Some in He. congruence.
    + split; [discriminate|]. intros (e' & c' & [= <-] & [= <-] & He & _).
      apply truthy_Some in He. congruence.
Qed.

(** The mock login answers a domain email with 200 and always discloses
    the code it generated, six digits, together with the email, whatever
    [NODE_ENV] is: nothing is stored and no mail is sent. *)
Theorem mock_login_discloses_code
    (NODE_ENV DATABASE_URL SMTP_USER : option string) (w : World)
    (email : string) (code : option string) :
  (exists p, email = p ++ "@nextest.com.br") ->
  random_draw (Math_random w) = true ->
  exists debugCode,
    mock.handler NODE_ENV DATABASE_URL SMTP_USER w
      {| mock.method := "POST"; mock.pathname := Some "/api/auth/login";
         mock.body := Some {| mock.email := Some email; mock.code := code |} |}
    = {| mock.status := 200;
         mock.body_ :=
           mock.LoginOk "Código de verificação gerado (mock)" debugCode email
                        "Este é um teste - banco não conectado ainda" |}
    /\ debugCode = generateVerificationCode (Math_random w)
    /\ String.length debugCode = 6%nat /\ allDigits debugCode = true.
Proof.
  intros Hd Hr. exists (generateVerificationCode (Math_random w)).
  split; [now apply mock_login_code|]. split; [reflexivity|].
  apply toString_six. now apply code_range.
Qed.

Lemma mock_login_discloses_code_witness :
  exists debugCode,
    mock.handler (Some "production") None None (at_time 0 true)
      {| mock.method := "POST"; mock.pathname := Some "/api/auth/login";
         mock.body := Some {| mock.email := Some "ana@nextest.com.br";
                              mock.code := None |} |}
    = {| mock.status := 200;
         mock.body_ :=
           mock.LoginOk "Código de verificação gerado (mock)" debugCode
                        "ana@nextest.com.br"
                        "Este é um teste - banco não conectado ainda" |}
    /\ debugCode = generateVerificationCode (Math_random (at_time 0 true))
    /\ String.length debugCode = 6%nat /\ allDigits debugCode = true.
Proof.
  apply (mock_login_discloses_code (Some "production") None None (at_time 0 true)
           "ana@nextest.com.br" None).
  - exists "ana". reflexivity.
  - vm_compute. reflexivity.
Defined.

(** ** Two verifications of different codes in flight *)

(** Marking a key leaves the selection for a pair alone when no row with
    that key holds the pair. *)
Lemma select_mark_other (now : Z) (email code : string) (key : N)
    (rows : list verificationCodes.row) :
  (forall x, In x rows -> verificationCodes.id x = key ->
             ~ (verificationCodes.email x = email
                /\ verificationCodes.code x = code)) ->
  select_codes now email code (mark_used key rows)
  = select_codes now email code rows.
Proof.
  unfold select_codes, mark_used.
  induction rows as [|x rows IH]; intros H; [reflexivity|].
  cbn [map filter]. rewrite IH by (intros y Hy; apply H; now right).
  destruct (N.eqb_spec (verificationCodes.id x) key) as [E|_]; [|reflexivity].
  assert (forall b, acceptable now email code (verificationCodes.set_used b x)
                    = false) as Hno.
  { intros b. unfold acceptable. cbn.
    destruct (String.eqb_spec (verificationCodes.email x) email) as [He|];
      [|reflexivity].
    destruct (String.eqb_spec (verificationCodes.code x) code) as [Hc|];
      [|reflexivity].
    exfalso. apply (H x (or_introl eq_refl) E). now split. }
  assert (acceptable now email code x = false) as Hx.
  { destruct x as [i e c t u ca]. exact (Hno u). }
  now rewrite Hno, Hx.
Qed.

Lemma mark_used_fields (key : N) (rows : list verificationCodes.row)
    (y : verificationCodes.row) :
  In y (mark_used key rows) ->
  exists x, In x rows
            /\ verificationCodes.id y = verificationCodes.id x
            /\ verificationCodes.email y = verificationCodes.email x
            /\ verificationCodes.code y = verificationCodes.code x.
Proof.
  intros Hy.
  destruct (Forall2_In_right kept _ _ y (mark_used_kept key rows) Hy)
    as [x [Hx (K1 & K2 & K3 & _)]].
  exists x. auto.
Qed.

Lemma apart_step (rq1 rq2 : VerifyRequest) (r1 r2 : verificationCodes.row)
    (l1 l2 : list verificationCodes.row) (c : Pair) (t : Turn) :
  req_email rq1 <> req_email rq2 \/ req_code rq1 <> req_code rq2 ->
  apart rq1 rq2 r1 r2 l1 l2 c ->
  apart rq1 rq2 r1 r2 l1 l2 (pair_step rq1 rq2 c t).
Proof.
  intros Hdiff (S1 & S2 & U1 & U2 & C1 & C2 & K1 & K2).
  destruct t; cbn [pair_step].
  - destruct (point1 c) as [|x| |s res] eqn:P1; cbn [verify_step].
    + rewrite (S1 eq_refl). unfold apart. cbn [shared point1 point2 committed].
      repeat split; auto; try discriminate; try (apply K1; assumption);
        try (apply K2; assumption).
      intros x [= <-]. reflexivity.
    + pose proof (U1 x eq_refl) as ->.
      unfold apart. cbn [shared point1 point2 committed codes_rows].
      repeat split; auto; try discriminate.
      * intros P2. rewrite select_mark_other; [now apply S2|].
        intros y Hy Hid [He Hc]. destruct (K1 y Hy Hid) as [He1 Hc1].
        destruct Hdiff; congruence.
      * destruct (mark_used_fields _ _ _ H) as [y (Hy & Ei & Ee & Ec)].
        rewrite Ee. apply (K1 y Hy). congruence.
      * destruct (mark_used_fields _ _ _ H) as [y (Hy & Ei & Ee & Ec)].
        rewrite Ec. apply (K1 y Hy). congruence.
      * destruct (mark_used_fields _ _ _ H) as [y (Hy & Ei & Ee & Ec)].
        rewrite Ee. apply (K2 y Hy). congruence.
      * destruct (mark_used_fields _ _ _ H) as [y (Hy & Ei & Ee & Ec)].
        rewrite Ec. apply (K2 y Hy). congruence.
    + unfold apart. cbn [shared point1 point2 committed].
      repeat split; auto; try discriminate; try (apply K1; assumption);
        try (apply K2; assumption).
    + destruct C1 as [C1|C1]; [discriminate|].
      unfold apart. cbn [shared point1 point2].
      repeat split; auto; try discriminate; try (apply K1; assumption);
        try (apply K2; assumption).
  - destruct (point2 c) as [|x| |s res] eqn:P2; cbn [verify_step].
    + rewrite (S2 eq_refl). unfold apart. cbn [shared point1 point2 committed].
      repeat split; auto; try discriminate; try (apply K1; assumption);
        try (apply K2; assumption).
      intros x [= <-]. reflexivity.
    + pose proof (U2 x eq_refl) as ->.
      unfold apart. cbn [shared point1 point2 committed codes_rows].
      repeat split; auto; try discriminate.
      * intros P1. rewrite select_mark_other; [now apply S1|].
        intros y Hy Hid [He Hc]. destruct (K2 y Hy Hid) as [He2 Hc2].
        destruct Hdiff; congruence.
      * destruct (mark_used_fields _ _ _ H) as [y (Hy & Ei & Ee & Ec)].
        rewrite Ee. apply (K1 y Hy). congruence.
      * destruct (mark_used_fields _ _ _ H) as [y (Hy & Ei & Ee & Ec)].
        rewrite Ec. apply (K1 y Hy). congruence.
      * destruct (mark_used_fields _ _ _ H) as [y (Hy & Ei & Ee & Ec)].
        rewrite Ee. apply (K2 y Hy). congruence.
      * destruct (mark_used_fields _ _ _ H) as [y (Hy & Ei & Ee & Ec)].
        rewrite Ec. apply (K2 y Hy). congruence.
    + unfold apart. cbn [shared point1 point2 committed].
      repeat split; auto; try discriminate; try (apply K1; assumption);
        try (apply K2; assumption).
    + destruct C2 as [C2|C2]; [discriminate|].
      unfold apart. cbn [shared point1 point2].
      repeat split; auto; try discriminate; try (apply K1; assumption);
        try (apply K2; assumption).
Qed.

Lemma apart_run (rq1 rq2 : VerifyRequest) (r1 r2 : verificationCodes.row)
    (l1 l2 : list verificationCodes.row) (schedule : list Turn) (c : Pair) :
  req_email rq1 <> req_email rq2 \/ req_code rq1 <> req_code rq2 ->
  apart rq1 rq2 r1 r2 l1 l2 c ->
  apart rq1 rq2 r1 r2 l1 l2 (fold_left (pair_step rq1 rq2) schedule c).
Proof.
  intros Hdiff. revert c.
  induction schedule as [|t schedule IH]; intros c H; cbn [fold_left];
    [exact H|].
  apply IH. now apply apart_step.
Qed.

Lemma NoDup_key_eq {A B : Type} (f : A -> B) (l : list A) (x y : A) :
  NoDup (map f l) -> In x l -> In y l -> f x = f y -> x = y.
Proof.
  induction l as [|a l IH]; intros Hnd Hx Hy E; [destruct Hx|].
  cbn [map] in Hnd. inversion Hnd as [|? ? Hnotin Hnd']; subst.
  destruct Hx as [->|Hx], Hy as [->|Hy]; auto.
  - exfalso. apply Hnotin. rewrite E. now apply in_map.
  - exfalso. apply Hnotin. rewrite <- E. now apply in_map.
Qed.

(** Verifications of different pairs do not disturb each other.  With
    unique keys in the table, two requests that each find a row, for
    different emails or different codes, both succeed under every
    schedule that gives each its three turns. *)
Theorem independent_verifications_both_succeed
    (rq1 rq2 : VerifyRequest) (db : Db) (r1 r2 : verificationCodes.row)
    (l1 l2 : list verificationCodes.row) (schedule : list Turn) :
  select_codes (Date_now (req_world rq1)) (req_email rq1) (req_code rq1)
               (codes_rows db) = r1 :: l1 ->
  select_codes (Date_now (req_world rq2)) (req_email rq2) (req_code rq2)
               (codes_rows db) = r2 :: l2 ->
  req_email rq1 <> req_email rq2 \/ req_code rq1 <> req_code rq2 ->
  NoDup (map verificationCodes.id (codes_rows db)) ->
  (3 <= turns First schedule)%nat -> (3 <= turns Second schedule)%nat ->
  succeeded (point1 (run_pair rq1 rq2 schedule db)) = true
  /\ succeeded (point2 (run_pair rq1 rq2 schedule db)) = true.
Proof.
  intros H1 H2 Hdiff Hnd T1 T2. unfold run_pair.
  set (c0 := {| shared := db; point1 := AtSelect; point2 := AtSelect |}).
  assert (In r1 (codes_rows db)
          /\ verificationCodes.email r1 = req_email rq1
          /\ verificationCodes.code r1 = req_code rq1) as (I1 & E1 & C1).
  { assert (In r1 (select_codes (Date_now (req_world rq1)) (req_email rq1)
                     (req_code rq1) (codes_rows db))) as H
      by (rewrite H1; now left).
    apply select_codes_In in H. tauto. }
  assert (In r2 (codes_rows db)
          /\ verificationCodes.email r2 = req_email rq2
          /\ verificationCodes.code r2 = req_code rq2) as (I2 & E2 & C2).
  { assert (In r2 (select_codes (Date_now (req_world rq2)) (req_email rq2)
                     (req_code rq2) (codes_rows db))) as H
      by (rewrite H2; now left).
    apply select_codes_In in H. tauto. }
  assert (apart rq1 rq2 r1 r2 l1 l2 c0) as A0.
  { unfold apart, c0. cbn [shared point1 point2].
    repeat split; auto; try discriminate.
    - now rewrite (NoDup_key_eq verificationCodes.id _ x r1 Hnd H I1 H0).
    - now rewrite (NoDup_key_eq verificationCodes.id _ x r1 Hnd H I1 H0).
    - now rewrite (NoDup_key_eq verificationCodes.id _ x r2 Hnd H I2 H0).
    - now rewrite (NoDup_key_eq verificationCodes.id _ x r2 Hnd H I2 H0). }
  pose proof (apart_run rq1 rq2 r1 r2 l1 l2 schedule c0 Hdiff A0)
    as (_ & _ & _ & _ & F1 & F2 & _).
  destruct (run_remaining rq1 rq2 schedule c0) as [R1 R2].
  cbn [c0 point1 point2 remaining] in R1, R2.
  split; apply committed_done; try lia.
  - destruct F1 as [F1|F1]; [|exact F1]. rewrite F1 in R1.
    cbn [remaining] in R1. lia.
  - destruct F2 as [F2|F2]; [|exact F2]. rewrite F2 in R2.
    cbn [remaining] in R2. lia.
Qed.

Lemma independent_verifications_both_succeed_witness :
  succeeded
    (point1 (run_pair (verify_request 500 "123456") (verify_request 501 "222222")
               [First; Second; Second; First; First; Second]
               {| users_rows := [ana];
                  codes_rows := [pending 1 "123456" 5000;
                                 pending 2 "222222" 5000] |})) = true
  /\ succeeded
       (point2 (run_pair (verify_request 500 "123456") (verify_request 501 "222222")
                  [First; Second; Second; First; First; Second]
                  {| users_rows := [ana];
                     codes_rows := [pending 1 "123456" 5000;
                                    pending 2 "222222" 5000] |})) = true.
Proof.
  apply (independent_verifications_both_succeed
           (verify_request 500 "123456") (verify_request 501 "222222")
           {| users_rows := [ana];
              codes_rows := [pending 1 "123456" 5000; pending 2 "222222" 5000] |}
           (pending 1 "123456" 5000) (pending 2 "222222" 5000) [] []
           [First; Second; Second; First; First; Second]).
  - reflexivity.
  - reflexivity.
  - right. discriminate.
  - cbn. repeat constructor; cbn; intuition discriminate.
  - cbn. lia.
  - cbn. lia.
Defined.

(** ** Worked instances of the properties without a precondition *)

Lemma history_preserved_witness :
  users_rows
    (serve_all one_pending
       [ Login development (at_time 1000 true) (Some "ana@nextest.com.br");
         Verify (at_time 2000 true) None "ana@nextest.com.br" "123456" ])
  = users_rows one_pending.
Proof.
  exact (proj1 (history_preserved
                  [ Login development (at_time 1000 true)
                          (Some "ana@nextest.com.br");
                    Verify (at_time 2000 true) None "ana@nextest.com.br" "123456" ]
                  one_pending)).
Defined.

Lemma auth_me_status_witness :
  status (auth_me only_ana (Some "u-bob")) = 404
  <-> truthy (Some "u-bob") = true
      /\ forall u, In u (users_rows only_ana) -> Some (users.id u) <> Some "u-bob".
Proof.
  exact (proj1 (proj2 (auth_me_status only_ana (Some "u-bob")))).
Defined.

Lemma mock_preflight_and_bad_url_witness :
  mock.handler None None None (at_time 0 true)
    {| mock.method := "OPTIONS"; mock.pathname := None; mock.body := None |}
  = {| mock.status := 200; mock.body_ := mock.End_ |}.
Proof.
  exact (proj1 (mock_preflight_and_bad_url None None None (at_time 0 true)
                  "OPTIONS" None None) eq_refl).
Defined.

Lemma mock_verify_refusals_witness :
  mock.handler None None None (at_time 0 true)
    {| mock.method := "POST"; mock.pathname := Some "/api/auth/verify";
       mock.body := Some {| mock.email := Some "ana@nextest.com.br";
                            mock.code := None |} |}
  = {| mock.status := 400;
       mock.body_ := mock.Message "Email e código são obrigatórios" |}.
Proof.
  exact (proj1 (mock_verify_refusals None None None (at_time 0 true)
                  (Some "ana@nextest.com.br") None) (or_intror eq_refl)).
Defined.
